(** * rocker-compose, [src/compose/config_convert.go]

    A shallow embedding of the conversion layer between the declarative
    container specification ([ConfigContainer]) and the structures of the
    Docker remote API ([docker.Config], [docker.HostConfig]), and of the
    extraction of a specification from the labels of an inspected
    container. *)

From Stdlib Require Import ZArith String.
From stdpp Require Import base option list gmap strings fin_maps fin_sets.

Local Open Scope string_scope.
Local Open Scope list_scope.

(** ** The fragment of Go the file is written in *)

(** A call either returns or panics (nil pointer dereference, write to a
    nil map). *)
Inductive outcome (A : Type) : Type :=
| Done (a : A)
| Panic.
Arguments Done {A} a.
Arguments Panic {A}.

#[global] Instance outcome_ret : MRet outcome := λ A a, Done a.
#[global] Instance outcome_bind : MBind outcome := λ A B f m,
  match m with Done a => f a | Panic => Panic end.

(** Statements in sequence: the structure under construction goes from
    one statement to the next. *)
Notation "m >>= f" := (mbind f m) (at level 58, left associativity).

(** [*T]: a pointer is nil or points to a value. *)
Definition ptr (A : Type) : Type := option A.
Definition nil {A} : ptr A := None.
Definition is_nil {A} (p : ptr A) : bool :=
  match p with None => true | Some _ => false end.
(** [*p] *)
Definition deref {A} (p : ptr A) : outcome A :=
  match p with Some a => Done a | None => Panic end.

(** [[]T]: a slice is nil or a sequence; [len], [range] and [append] accept
    the nil slice, which differs from the empty one only under [!= nil]. *)
Definition slice (A : Type) : Type := option (list A).
Definition elems {A} (s : slice A) : list A := default [] s.
Definition len {A} (s : slice A) : nat := length (elems s).
Definition append {A} (s : slice A) (x : A) : slice A :=
  Some (elems s ++ [x])%list.

(** [map[string]V]: nil or a finite map. Reading a nil map finds nothing,
    deleting from it does nothing, writing to it panics. *)
Definition gomap (V : Type) : Type := option (gmap string V).
(** [v, ok := m[k]] *)
Definition map_index {V} (m : gomap V) (k : string) : option V :=
  match m with Some g => g !! k | None => None end.
(** [m[k] = v] *)
Definition map_store {V} (k : string) (v : V) (m : gomap V) : outcome (gomap V) :=
  match m with Some g => Done (Some (<[k:=v]> g)) | None => Panic end.
(** [delete(m, k)] *)
Definition map_delete {V} (k : string) (m : gomap V) : gomap V :=
  match m with Some g => Some (delete k g) | None => None end.

(** [map[string]struct{}]: a set of strings. *)
Definition goset : Type := option (gset string).
Definition set_store (k : string) (m : goset) : outcome goset :=
  match m with Some g => Done (Some ({[k]} ∪ g)) | None => Panic end.
Definition set_len (m : goset) : nat :=
  match m with Some g => size g | None => 0%nat end.

(** [for k, v := range m]: Go visits the entries of a map in an order it
    does not specify. The order is a parameter of the model; all that is
    known of it is that every entry is visited once. *)
Class MapRange : Type := {
  map_range : ∀ V, gmap string V → list (string * V);
  map_range_perm : ∀ V (m : gmap string V), map_range V m ≡ₚ map_to_list m
}.
Arguments map_range {_ V} m.

(** [if cond { body }] on the structure under construction. *)
Definition when {S} (cond : bool) (body : S → outcome S) (s : S) : outcome S :=
  if cond then body s else Done s.

(** [for _, x := range xs { body }] on the structure under construction. *)
Fixpoint for_range {A S} (xs : list A) (body : A → S → outcome S) (s : S)
  : outcome S :=
  match xs with
  | [] => Done s
  | x :: xs' => s' ← body x s; for_range xs' body s'
  end.

(** [strings.HasPrefix(s, prefix)] *)
Definition HasPrefix (s prefix : string) : bool := String.prefix prefix s.

(** [strings.Contains(s, substr)]: [substr] starts at some position of [s]. *)
Fixpoint Contains (s substr : string) : bool :=
  String.prefix substr s ||
  match s with
  | EmptyString => false
  | String _ s' => Contains s' substr
  end.

(** [fmt.Sprintf("%s=%s", key, val)] *)
Definition Sprintf_eq (key val : string) : string := key +:+ "=" +:+ val.

(** An [error] made by [fmt.Errorf] carries its message. *)
Definition error : Type := string.

(** ** The structures of the Docker client library

    [docker.Config], [docker.HostConfig] and [docker.Container] belong to
    the go-dockerclient package; the fields below are the ones
    config_convert.go reads or writes, with their Go types. *)
Module docker.

(** [type Port string], of the shape ["80/tcp"]. *)
Definition Port : Type := string.

Module PortBinding.
Record t : Type := mk { HostIP : string; HostPort : string }.
End PortBinding.

Module ULimit.
Record t : Type := mk { Name : string; Soft : Z; Hard : Z }.
End ULimit.

Module RestartPolicy.
Record t : Type := mk { Name : string; MaximumRetryCount : Z }.
Definition zero : t := {| Name := ""; MaximumRetryCount := 0 |}.
End RestartPolicy.

Module Config.
Record t : Type := mk {
  Hostname : string;
  Domainname : string;
  User : string;
  Memory : Z;
  MemorySwap : Z;
  CPUShares : Z;
  CPUSet : string;
  ExposedPorts : goset;
  Env : slice string;
  Cmd : slice string;
  Image : string;
  Volumes : goset;
  WorkingDir : string;
  Entrypoint : slice string;
  NetworkDisabled : bool;
  Labels : gomap string
}.
(** [docker.Config{}]: every field at the zero value of its type. *)
Definition zero : t := {|
  Hostname := "";
  Domainname := "";
  User := "";
  Memory := 0%Z;
  MemorySwap := 0%Z;
  CPUShares := 0%Z;
  CPUSet := "";
  ExposedPorts := None;
  Env := None;
  Cmd := None;
  Image := "";
  Volumes := None;
  WorkingDir := "";
  Entrypoint := None;
  NetworkDisabled := false;
  Labels := None
|}.
Definition set_Hostname (v : string) (s : t) : t :=
  {| Hostname := v; Domainname := Domainname s; User := User s;
     Memory := Memory s; MemorySwap := MemorySwap s;
     CPUShares := CPUShares s; CPUSet := CPUSet s;
     ExposedPorts := ExposedPorts s; Env := Env s; Cmd := Cmd s;
     Image := Image s; Volumes := Volumes s; WorkingDir := WorkingDir s;
     Entrypoint := Entrypoint s; NetworkDisabled := NetworkDisabled s;
     Labels := Labels s |}.
Definition set_Domainname (v : string) (s : t) : t :=
  {| Hostname := Hostname s; Domainname := v; User := User s;
     Memory := Memory s; MemorySwap := MemorySwap s;
     CPUShares := CPUShares s; CPUSet := CPUSet s;
     ExposedPorts := ExposedPorts s; Env := Env s; Cmd := Cmd s;
     Image := Image s; Volumes := Volumes s; WorkingDir := WorkingDir s;
     Entrypoint := Entrypoint s; NetworkDisabled := NetworkDisabled s;
     Labels := Labels s |}.
Definition set_User (v : string) (s : t) : t :=
  {| Hostname := Hostname s; Domainname := Domainname s; User := v;
     Memory := Memory s; MemorySwap := MemorySwap s;
     CPUShares := CPUShares s; CPUSet := CPUSet s;
     ExposedPorts := ExposedPorts s; Env := Env s; Cmd := Cmd s;
     Image := Image s; Volumes := Volumes s; WorkingDir := WorkingDir s;
     Entrypoint := Entrypoint s; NetworkDisabled := NetworkDisabled s;
     Labels := Labels s |}.
Definition set_Memory (v : Z) (s : t) : t :=
  {| Hostname := Hostname s; Domainname := Domainname s; User := User s;
     Memory := v; MemorySwap := MemorySwap s; CPUShares := CPUShares s;
     CPUSet := CPUSet s; ExposedPorts := ExposedPorts s; Env := Env s;
     Cmd := Cmd s; Image := Image s; Volumes := Volumes s;
     WorkingDir := WorkingDir s; Entrypoint := Entrypoint s;
     NetworkDisabled := NetworkDisabled s; Labels := Labels s |}.
Definition set_MemorySwap (v : Z) (s : t) : t :=
  {| Hostname := Hostname s; Domainname := Domainname s; User := User s;
     Memory := Memory s; MemorySwap := v; CPUShares := CPUShares s;
     CPUSet := CPUSet s; ExposedPorts := ExposedPorts s; Env := Env s;
     Cmd := Cmd s; Image := Image s; Volumes := Volumes s;
     WorkingDir := WorkingDir s; Entrypoint := Entrypoint s;
     NetworkDisabled := NetworkDisabled s; Labels := Labels s |}.
Definition set_CPUShares (v : Z) (s : t) : t :=
  {| Hostname := Hostname s; Domainname := Domainname s; User := User s;
     Memory := Memory s; MemorySwap := MemorySwap s; CPUShares := v;
     CPUSet := CPUSet s; ExposedPorts := ExposedPorts s; Env := Env s;
     Cmd := Cmd s; Image := Image s; Volumes := Volumes s;
     WorkingDir := WorkingDir s; Entrypoint := Entrypoint s;
     NetworkDisabled := NetworkDisabled s; Labels := Labels s |}.
Definition set_CPUSet (v : string) (s : t) : t :=
  {| Hostname := Hostname s; Domainname := Domainname s; User := User s;
     Memory := Memory s; MemorySwap := MemorySwap s;
     CPUShares := CPUShares s; CPUSet := v;
     ExposedPorts := ExposedPorts s; Env := Env s; Cmd := Cmd s;
     Image := Image s; Volumes := Volumes s; WorkingDir := WorkingDir s;
     Entrypoint := Entrypoint s; NetworkDisabled := NetworkDisabled s;
     Labels := Labels s |}.
Definition set_ExposedPorts (v : goset) (s : t) : t :=
  {| Hostname := Hostname s; Domainname := Domainname s; User := User s;
     Memory := Memory s; MemorySwap := MemorySwap s;
     CPUShares := CPUShares s; CPUSet := CPUSet s; ExposedPorts := v;
     Env := Env s; Cmd := Cmd s; Image := Image s; Volumes := Volumes s;
     WorkingDir := WorkingDir s; Entrypoint := Entrypoint s;
     NetworkDisabled := NetworkDisabled s; Labels := Labels s |}.
Definition set_Env (v : slice string) (s : t) : t :=
  {| Hostname := Hostname s; Domainname := Domainname s; User := User s;
     Memory := Memory s; MemorySwap := MemorySwap s;
     CPUShares := CPUShares s; CPUSet := CPUSet s;
     ExposedPorts := ExposedPorts s; Env := v; Cmd := Cmd s;
     Image := Image s; Volumes := Volumes s; WorkingDir := WorkingDir s;
     Entrypoint := Entrypoint s; NetworkDisabled := NetworkDisabled s;
     Labels := Labels s |}.
Definition set_Cmd (v : slice string) (s : t) : t :=
  {| Hostname := Hostname s; Domainname := Domainname s; User := User s;
     Memory := Memory s; MemorySwap := MemorySwap s;
     CPUShares := CPUShares s; CPUSet := CPUSet s;
     ExposedPorts := ExposedPorts s; Env := Env s; Cmd := v;
     Image := Image s; Volumes := Volumes s; WorkingDir := WorkingDir s;
     Entrypoint := Entrypoint s; NetworkDisabled := NetworkDisabled s;
     Labels := Labels s |}.
Definition set_Image (v : string) (s : t) : t :=
  {| Hostname := Hostname s; Domainname := Domainname s; User := User s;
     Memory := Memory s; MemorySwap := MemorySwap s;
     CPUShares := CPUShares s; CPUSet := CPUSet s;
     ExposedPorts := ExposedPorts s; Env := Env s; Cmd := Cmd s;
     Image := v; Volumes := Volumes s; WorkingDir := WorkingDir s;
     Entrypoint := Entrypoint s; NetworkDisabled := NetworkDisabled s;
     Labels := Labels s |}.
Definition set_Volumes (v : goset) (s : t) : t :=
  {| Hostname := Hostname s; Domainname := Domainname s; User := User s;
     Memory := Memory s; MemorySwap := MemorySwap s;
     CPUShares := CPUShares s; CPUSet := CPUSet s;
     ExposedPorts := ExposedPorts s; Env := Env s; Cmd := Cmd s;
     Image := Image s; Volumes := v; WorkingDir := WorkingDir s;
     Entrypoint := Entrypoint s; NetworkDisabled := NetworkDisabled s;
     Labels := Labels s |}.
Definition set_WorkingDir (v : string) (s : t) : t :=
  {| Hostname := Hostname s; Domainname := Domainname s; User := User s;
     Memory := Memory s; MemorySwap := MemorySwap s;
     CPUShares := CPUShares s; CPUSet := CPUSet s;
     ExposedPorts := ExposedPorts s; Env := Env s; Cmd := Cmd s;
     Image := Image s; Volumes := Volumes s; WorkingDir := v;
     Entrypoint := Entrypoint s; NetworkDisabled := NetworkDisabled s;
     Labels := Labels s |}.
Definition set_Entrypoint (v : slice string) (s : t) : t :=
  {| Hostname := Hostname s; Domainname := Domainname s; User := User s;
     Memory := Memory s; MemorySwap := MemorySwap s;
     CPUShares := CPUShares s; CPUSet := CPUSet s;
     ExposedPorts := ExposedPorts s; Env := Env s; Cmd := Cmd s;
     Image := Image s; Volumes := Volumes s; WorkingDir := WorkingDir s;
     Entrypoint := v; NetworkDisabled := NetworkDisabled s;
     Labels := Labels s |}.
Definition set_NetworkDisabled (v : bool) (s : t) : t :=
  {| Hostname := Hostname s; Domainname := Domainname s; User := User s;
     Memory := Memory s; MemorySwap := MemorySwap s;
     CPUShares := CPUShares s; CPUSet := CPUSet s;
     ExposedPorts := ExposedPorts s; Env := Env s; Cmd := Cmd s;
     Image := Image s; Volumes := Volumes s; WorkingDir := WorkingDir s;
     Entrypoint := Entrypoint s; NetworkDisabled := v;
     Labels := Labels s |}.
Definition set_Labels (v : gomap string) (s : t) : t :=
  {| Hostname := Hostname s; Domainname := Domainname s; User := User s;
     Memory := Memory s; MemorySwap := MemorySwap s;
     CPUShares := CPUShares s; CPUSet := CPUSet s;
     ExposedPorts := ExposedPorts s; Env := Env s; Cmd := Cmd s;
     Image := Image s; Volumes := Volumes s; WorkingDir := WorkingDir s;
     Entrypoint := Entrypoint s; NetworkDisabled := NetworkDisabled s;
     Labels := v |}.
End Config.

Module HostConfig.
Record t : Type := mk {
  Binds : slice string;
  Links : slice string;
  PortBindings : gomap (slice PortBinding.t);
  Privileged : bool;
  PublishAllPorts : bool;
  DNS : slice string;
  ExtraHosts : slice string;
  VolumesFrom : slice string;
  NetworkMode : string;
  PidMode : string;
  RestartPolicy : RestartPolicy.t;
  Ulimits : slice ULimit.t;
  Memory : Z;
  MemorySwap : Z;
  CPUSet : string
}.
(** [docker.HostConfig{}]: every field at the zero value of its type. *)
Definition zero : t := {|
  Binds := None;
  Links := None;
  PortBindings := None;
  Privileged := false;
  PublishAllPorts := false;
  DNS := None;
  ExtraHosts := None;
  VolumesFrom := None;
  NetworkMode := "";
  PidMode := "";
  RestartPolicy := RestartPolicy.zero;
  Ulimits := None;
  Memory := 0%Z;
  MemorySwap := 0%Z;
  CPUSet := ""
|}.
Definition set_Binds (v : slice string) (s : t) : t :=
  {| Binds := v; Links := Links s; PortBindings := PortBindings s;
     Privileged := Privileged s; PublishAllPorts := PublishAllPorts s;
     DNS := DNS s; ExtraHosts := ExtraHosts s;
     VolumesFrom := VolumesFrom s; NetworkMode := NetworkMode s;
     PidMode := PidMode s; RestartPolicy := RestartPolicy s;
     Ulimits := Ulimits s; Memory := Memory s;
     MemorySwap := MemorySwap s; CPUSet := CPUSet s |}.
Definition set_Links (v : slice string) (s : t) : t :=
  {| Binds := Binds s; Links := v; PortBindings := PortBindings s;
     Privileged := Privileged s; PublishAllPorts := PublishAllPorts s;
     DNS := DNS s; ExtraHosts := ExtraHosts s;
     VolumesFrom := VolumesFrom s; NetworkMode := NetworkMode s;
     PidMode := PidMode s; RestartPolicy := RestartPolicy s;
     Ulimits := Ulimits s; Memory := Memory s;
     MemorySwap := MemorySwap s; CPUSet := CPUSet s |}.
Definition set_PortBindings (v : gomap (slice PortBinding.t)) (s : t) : t :=
  {| Binds := Binds s; Links := Links s; PortBindings := v;
     Privileged := Privileged s; PublishAllPorts := PublishAllPorts s;
     DNS := DNS s; ExtraHosts := ExtraHosts s;
     VolumesFrom := VolumesFrom s; NetworkMode := NetworkMode s;
     PidMode := PidMode s; RestartPolicy := RestartPolicy s;
     Ulimits := Ulimits s; Memory := Memory s;
     MemorySwap := MemorySwap s; CPUSet := CPUSet s |}.
Definition set_Privileged (v : bool) (s : t) : t :=
  {| Binds := Binds s; Links := Links s; PortBindings := PortBindings s;
     Privileged := v; PublishAllPorts := PublishAllPorts s; DNS := DNS s;
     ExtraHosts := ExtraHosts s; VolumesFrom := VolumesFrom s;
     NetworkMode := NetworkMode s; PidMode := PidMode s;
     RestartPolicy := RestartPolicy s; Ulimits := Ulimits s;
     Memory := Memory s; MemorySwap := MemorySwap s;
     CPUSet := CPUSet s |}.
Definition set_PublishAllPorts (v : bool) (s : t) : t :=
  {| Binds := Binds s; Links := Links s; PortBindings := PortBindings s;
     Privileged := Privileged s; PublishAllPorts := v; DNS := DNS s;
     ExtraHosts := ExtraHosts s; VolumesFrom := VolumesFrom s;
     NetworkMode := NetworkMode s; PidMode := PidMode s;
     RestartPolicy := RestartPolicy s; Ulimits := Ulimits s;
     Memory := Memory s; MemorySwap := MemorySwap s;
     CPUSet := CPUSet s |}.
Definition set_DNS (v : slice string) (s : t) : t :=
  {| Binds := Binds s; Links := Links s; PortBindings := PortBindings s;
     Privileged := Privileged s; PublishAllPorts := PublishAllPorts s;
     DNS := v; ExtraHosts := ExtraHosts s; VolumesFrom := VolumesFrom s;
     NetworkMode := NetworkMode s; PidMode := PidMode s;
     RestartPolicy := RestartPolicy s; Ulimits := Ulimits s;
     Memory := Memory s; MemorySwap := MemorySwap s;
     CPUSet := CPUSet s |}.
Definition set_ExtraHosts (v : slice string) (s : t) : t :=
  {| Binds := Binds s; Links := Links s; PortBindings := PortBindings s;
     Privileged := Privileged s; PublishAllPorts := PublishAllPorts s;
     DNS := DNS s; ExtraHosts := v; VolumesFrom := VolumesFrom s;
     NetworkMode := NetworkMode s; PidMode := PidMode s;
     RestartPolicy := RestartPolicy s; Ulimits := Ulimits s;
     Memory := Memory s; MemorySwap := MemorySwap s;
     CPUSet := CPUSet s |}.
Definition set_VolumesFrom (v : slice string) (s : t) : t :=
  {| Binds := Binds s; Links := Links s; PortBindings := PortBindings s;
     Privileged := Privileged s; PublishAllPorts := PublishAllPorts s;
     DNS := DNS s; ExtraHosts := ExtraHosts s; VolumesFrom := v;
     NetworkMode := NetworkMode s; PidMode := PidMode s;
     RestartPolicy := RestartPolicy s; Ulimits := Ulimits s;
     Memory := Memory s; MemorySwap := MemorySwap s;
     CPUSet := CPUSet s |}.
Definition set_NetworkMode (v : string) (s : t) : t :=
  {| Binds := Binds s; Links := Links s; PortBindings := PortBindings s;
     Privileged := Privileged s; PublishAllPorts := PublishAllPorts s;
     DNS := DNS s; ExtraHosts := ExtraHosts s;
     VolumesFrom := VolumesFrom s; NetworkMode := v;
     PidMode := PidMode s; RestartPolicy := RestartPolicy s;
     Ulimits := Ulimits s; Memory := Memory s;
     MemorySwap := MemorySwap s; CPUSet := CPUSet s |}.
Definition set_PidMode (v : string) (s : t) : t :=
  {| Binds := Binds s; Links := Links s; PortBindings := PortBindings s;
     Privileged := Privileged s; PublishAllPorts := PublishAllPorts s;
     DNS := DNS s; ExtraHosts := ExtraHosts s;
     VolumesFrom := VolumesFrom s; NetworkMode := NetworkMode s;
     PidMode := v; RestartPolicy := RestartPolicy s;
     Ulimits := Ulimits s; Memory := Memory s;
     MemorySwap := MemorySwap s; CPUSet := CPUSet s |}.
Definition set_RestartPolicy (v : RestartPolicy.t) (s : t) : t :=
  {| Binds := Binds s; Links := Links s; PortBindings := PortBindings s;
     Privileged := Privileged s; PublishAllPorts := PublishAllPorts s;
     DNS := DNS s; ExtraHosts := ExtraHosts s;
     VolumesFrom := VolumesFrom s; NetworkMode := NetworkMode s;
     PidMode := PidMode s; RestartPolicy := v; Ulimits := Ulimits s;
     Memory := Memory s; MemorySwap := MemorySwap s;
     CPUSet := CPUSet s |}.
Definition set_Ulimits (v : slice ULimit.t) (s : t) : t :=
  {| Binds := Binds s; Links := Links s; PortBindings := PortBindings s;
     Privileged := Privileged s; PublishAllPorts := PublishAllPorts s;
     DNS := DNS s; ExtraHosts := ExtraHosts s;
     VolumesFrom := VolumesFrom s; NetworkMode := NetworkMode s;
     PidMode := PidMode s; RestartPolicy := RestartPolicy s;
     Ulimits := v; Memory := Memory s; MemorySwap := MemorySwap s;
     CPUSet := CPUSet s |}.
Definition set_Memory (v : Z) (s : t) : t :=
  {| Binds := Binds s; Links := Links s; PortBindings := PortBindings s;
     Privileged := Privileged s; PublishAllPorts := PublishAllPorts s;
     DNS := DNS s; ExtraHosts := ExtraHosts s;
     VolumesFrom := VolumesFrom s; NetworkMode := NetworkMode s;
     PidMode := PidMode s; RestartPolicy := RestartPolicy s;
     Ulimits := Ulimits s; Memory := v; MemorySwap := MemorySwap s;
     CPUSet := CPUSet s |}.
Definition set_MemorySwap (v : Z) (s : t) : t :=
  {| Binds := Binds s; Links := Links s; PortBindings := PortBindings s;
     Privileged := Privileged s; PublishAllPorts := PublishAllPorts s;
     DNS := DNS s; ExtraHosts := ExtraHosts s;
     VolumesFrom := VolumesFrom s; NetworkMode := NetworkMode s;
     PidMode := PidMode s; RestartPolicy := RestartPolicy s;
     Ulimits := Ulimits s; Memory := Memory s; MemorySwap := v;
     CPUSet := CPUSet s |}.
Definition set_CPUSet (v : string) (s : t) : t :=
  {| Binds := Binds s; Links := Links s; PortBindings := PortBindings s;
     Privileged := Privileged s; PublishAllPorts := PublishAllPorts s;
     DNS := DNS s; ExtraHosts := ExtraHosts s;
     VolumesFrom := VolumesFrom s; NetworkMode := NetworkMode s;
     PidMode := PidMode s; RestartPolicy := RestartPolicy s;
     Ulimits := Ulimits s; Memory := Memory s;
     MemorySwap := MemorySwap s; CPUSet := v |}.
End HostConfig.

(** The descriptor of an inspected container: its name and the
    configuration it was created with, which holds its labels. The
    runtime's inspect call fills in the configuration; a descriptor
    without one is outside the model. *)
Module Container.
Record t : Type := mk {
  ID : string;
  Image : string;
  Name : string;
  Config : Config.t
}.
End Container.

End docker.

(** ** The declarative specification

    The types of package compose that config_convert.go uses are declared
    in its sibling files. *)

(** The entries of the links and volumes-from lists are structured names
    that render themselves with a [String()] method. Neither their fields
    nor the rendering is visible from config_convert.go, and nothing below
    depends on them: they are parameters. *)
Class NameTypes : Type := {
  Link : Type;
  Link_String : Link → string;
  VolumeFrom : Type;
  VolumeFrom_String : VolumeFrom → string
}.

(** Modelled from the spec: the type ConfigMemory and its method Int64 are
    declared outside config_convert.go. The spec has memory and memory-swap
    as "optional sized quantities convertible to byte counts", converted
    "via the quantity's own byte-resolution rule (absent → untouched, not
    zero)", to "int64 bytes", by projections that are "total functions over
    a well-typed SpecModel". The quantity is held as its count of bytes;
    [Int64] has a pointer receiver, returns the count, and on a nil
    receiver returns the value an untouched int64 field has. *)
Module ConfigMemory.
Record t : Type := mk { bytes : Z }.
Definition Int64 (m : ptr t) : outcome Z :=
  match m with
  | Some q => Done (bytes q)
  | None => Done 0%Z
  end.
End ConfigMemory.

(** Modelled from the spec: the type RestartPolicy and its method
    ToDockerApi are declared outside config_convert.go. The spec has the
    "restart policy converted via its own to-runtime-format rule" by a
    projection that is total; the policy is held in the runtime's shape
    (name and maximum retry count), and a nil receiver gives the runtime's
    zero policy. *)
Module RestartPolicy.
Record t : Type := mk { Name : string; MaximumRetryCount : Z }.
Definition ToDockerApi (r : ptr t) : outcome docker.RestartPolicy.t :=
  match r with
  | Some p =>
      Done {| docker.RestartPolicy.Name := Name p;
              docker.RestartPolicy.MaximumRetryCount := MaximumRetryCount p |}
  | None => Done docker.RestartPolicy.zero
  end.
End RestartPolicy.

(** [config.Cmd.Parts]: the command is a pointer to a structure holding
    its arguments. *)
Module ConfigCmd.
Record t : Type := mk { Parts : slice string }.
End ConfigCmd.

(** An entry of [config.Ports]. *)
Module PortBinding.
Record t : Type := mk { Port : string; HostIp : string; HostPort : string }.
End PortBinding.

(** An entry of [config.Ulimits]. *)
Module ConfigUlimit.
Record t : Type := mk { Name : string; Soft : Z; Hard : Z }.
End ConfigUlimit.

Module ConfigContainer.
Section fields.
Context `{NameTypes}.
Record t : Type := mk {
  Image : ptr string;
  Cmd : ptr ConfigCmd.t;
  Entrypoint : slice string;
  Hostname : ptr string;
  Domainname : ptr string;
  Workdir : ptr string;
  User : ptr string;
  Memory : ptr ConfigMemory.t;
  MemorySwap : ptr ConfigMemory.t;
  CpusetCpus : ptr string;
  CpuShares : ptr Z;
  NetworkDisabled : ptr bool;
  Expose : slice string;
  Env : gomap string;
  Volumes : slice string;
  Dns : slice string;
  AddHost : slice string;
  Restart : ptr RestartPolicy.t;
  Net : ptr string;
  Pid : ptr string;
  Privileged : ptr bool;
  PublishAllPorts : ptr bool;
  Ports : slice PortBinding.t;
  Links : slice Link;
  VolumesFrom : slice VolumeFrom;
  Ulimits : slice ConfigUlimit.t;
  Labels : gomap string
}.
(** [ConfigContainer{}] *)
Definition zero : t := {|
  Image := None; Cmd := None; Entrypoint := None; Hostname := None;
  Domainname := None; Workdir := None; User := None; Memory := None;
  MemorySwap := None; CpusetCpus := None; CpuShares := None;
  NetworkDisabled := None; Expose := None; Env := None; Volumes := None;
  Dns := None; AddHost := None; Restart := None; Net := None;
  Pid := None; Privileged := None; PublishAllPorts := None;
  Ports := None; Links := None; VolumesFrom := None; Ulimits := None;
  Labels := None
|}.
Definition set_Labels (v : gomap string) (s : t) : t :=
  {| Image := Image s; Cmd := Cmd s; Entrypoint := Entrypoint s;
     Hostname := Hostname s; Domainname := Domainname s;
     Workdir := Workdir s; User := User s; Memory := Memory s;
     MemorySwap := MemorySwap s; CpusetCpus := CpusetCpus s;
     CpuShares := CpuShares s; NetworkDisabled := NetworkDisabled s;
     Expose := Expose s; Env := Env s; Volumes := Volumes s;
     Dns := Dns s; AddHost := AddHost s; Restart := Restart s;
     Net := Net s; Pid := Pid s; Privileged := Privileged s;
     PublishAllPorts := PublishAllPorts s; Ports := Ports s;
     Links := Links s; VolumesFrom := VolumesFrom s;
     Ulimits := Ulimits s; Labels := v |}.
End fields.
End ConfigContainer.

(** [yaml.Unmarshal(in, out)] of the go-yaml package decodes into the
    structure [out] points to and returns an error or nil; what it has
    written to [out] when it fails is not specified. [yaml.Marshal] is its
    inverse direction. The codec is a parameter of the model. *)
Class Yaml `{NameTypes} : Type := {
  Unmarshal : string → ConfigContainer.t → ConfigContainer.t * option error;
  Marshal : ConfigContainer.t → string
}.

(** ** config_convert.go *)

(** [for k, v := range m] over a map that may be nil. *)
Definition map_entries `{MapRange} {V} (m : gomap V) : list (string * V) :=
  match m with Some g => map_range g | None => [] end.

(** [_, ok := m[k]] *)
Definition has_key {V} (m : gomap V) (k : string) : bool :=
  match map_index m k with Some _ => true | None => false end.

(** [m[k]] read as a value: the nil slice when the key is missing. *)
Definition map_read {A} (m : gomap (slice A)) (k : string) : slice A :=
  match map_index m k with Some v => v | None => None end.

Section convert.
Context `{MapRange} `{NameTypes} `{!Yaml}.

(** [NewContainerConfigFromDocker] returns the pair of Go: the
    specification or nil, and the error or nil. The loop deletes from
    the map it ranges over; Go allows that, and since it deletes only
    the key it is visiting, it visits the entries the map had when the
    loop began. *)
Definition NewContainerConfigFromDocker (apiContainer : docker.Container.t)
  : ptr ConfigContainer.t * option error :=
  match map_index (docker.Config.Labels (docker.Container.Config apiContainer))
                  "rocker-compose-config" with
  | None =>
      (nil, Some "Expecting container to have label 'rocker-compose-config' to parse it")
  | Some yamlData =>
      let container := ConfigContainer.zero in
      match Unmarshal yamlData container with
      | (_, Some err) =>
          (nil, Some ("Failed to parse YAML config for container "
                      +:+ docker.Container.Name apiContainer
                      +:+ ", error: " +:+ err))
      | (container, None) =>
          let container :=
            if negb (is_nil (ConfigContainer.Labels container)) then
              foldl (λ container '(k, _),
                       if HasPrefix k "rocker-compose-" then
                         ConfigContainer.set_Labels
                           (map_delete k (ConfigContainer.Labels container))
                           container
                       else container)
                    container
                    (map_entries (ConfigContainer.Labels container))
            else container in
          (Some container, None)
      end
  end.

Import ConfigContainer.

Definition GetApiConfig (config : ConfigContainer.t) : outcome docker.Config.t :=
  (* Copy simple values *)
  let apiConfig :=
    docker.Config.set_Labels (Labels config)
      (docker.Config.set_Entrypoint (Entrypoint config) docker.Config.zero) in
  Done apiConfig
  >>= when (negb (is_nil (Cmd config))) (λ apiConfig,
       cmd ← deref (Cmd config);
       Done (docker.Config.set_Cmd (ConfigCmd.Parts cmd) apiConfig))
  >>= when (negb (is_nil (Image config))) (λ apiConfig,
       v ← deref (Image config); Done (docker.Config.set_Image v apiConfig))
  >>= when (negb (is_nil (Hostname config))) (λ apiConfig,
       v ← deref (Hostname config); Done (docker.Config.set_Hostname v apiConfig))
  >>= when (negb (is_nil (Domainname config))) (λ apiConfig,
       v ← deref (Domainname config);
       Done (docker.Config.set_Domainname v apiConfig))
  >>= when (negb (is_nil (Workdir config))) (λ apiConfig,
       v ← deref (Workdir config); Done (docker.Config.set_WorkingDir v apiConfig))
  >>= when (negb (is_nil (User config))) (λ apiConfig,
       v ← deref (User config); Done (docker.Config.set_User v apiConfig))
  >>= when (negb (is_nil (Memory config))) (λ apiConfig,
       v ← ConfigMemory.Int64 (Memory config);
       Done (docker.Config.set_Memory v apiConfig))
  >>= when (negb (is_nil (MemorySwap config))) (λ apiConfig,
       v ← ConfigMemory.Int64 (MemorySwap config);
       Done (docker.Config.set_MemorySwap v apiConfig))
  >>= when (negb (is_nil (CpusetCpus config))) (λ apiConfig,
       v ← deref (CpusetCpus config); Done (docker.Config.set_CPUSet v apiConfig))
  >>= when (negb (is_nil (CpuShares config))) (λ apiConfig,
       v ← deref (CpuShares config); Done (docker.Config.set_CPUShares v apiConfig))
  >>= when (negb (is_nil (NetworkDisabled config))) (λ apiConfig,
       v ← deref (NetworkDisabled config);
       Done (docker.Config.set_NetworkDisabled v apiConfig))
  (* expose *)
  >>= when (negb (is_nil (Expose config))) (λ apiConfig,
       for_range (elems (Expose config)) (λ portBinding apiConfig,
         let port : docker.Port := portBinding in
         ports ← set_store port (docker.Config.ExposedPorts apiConfig);
         Done (docker.Config.set_ExposedPorts ports apiConfig))
       (docker.Config.set_ExposedPorts (Some ∅) apiConfig))
  (* env *)
  >>= when (negb (is_nil (Env config))) (λ apiConfig,
       for_range (map_entries (Env config)) (λ '(key, val) apiConfig,
         Done (docker.Config.set_Env
                 (append (docker.Config.Env apiConfig) (Sprintf_eq key val))
                 apiConfig))
       (docker.Config.set_Env (Some []) apiConfig))
  (* volumes *)
  >>= when (negb (is_nil (Volumes config))) (λ apiConfig,
       hostVolumes ← for_range (elems (Volumes config)) (λ volume,
         when (negb (Contains volume ":")) (set_store volume))
         (Some ∅);
       when (0 <? set_len hostVolumes)%nat (λ apiConfig,
         Done (docker.Config.set_Volumes hostVolumes apiConfig)) apiConfig).

Definition GetApiHostConfig (config : ConfigContainer.t)
  : outcome docker.HostConfig.t :=
  restartPolicy ← RestartPolicy.ToDockerApi (Restart config);
  memory ← ConfigMemory.Int64 (Memory config);
  memorySwap ← ConfigMemory.Int64 (MemorySwap config);
  let hostConfig :=
    docker.HostConfig.set_DNS (Dns config)
      (docker.HostConfig.set_ExtraHosts (AddHost config)
        (docker.HostConfig.set_RestartPolicy restartPolicy
          (docker.HostConfig.set_Memory memory
            (docker.HostConfig.set_MemorySwap memorySwap
              docker.HostConfig.zero)))) in
  Done hostConfig
  >>= when (negb (is_nil (Net config))) (λ hostConfig,
       v ← deref (Net config); Done (docker.HostConfig.set_NetworkMode v hostConfig))
  >>= when (negb (is_nil (Pid config))) (λ hostConfig,
       v ← deref (Pid config); Done (docker.HostConfig.set_PidMode v hostConfig))
  >>= when (negb (is_nil (CpusetCpus config))) (λ hostConfig,
       v ← deref (CpusetCpus config);
       Done (docker.HostConfig.set_CPUSet v hostConfig))
  (* Binds *)
  >>= (λ hostConfig,
       binds ← for_range (elems (Volumes config)) (λ volume,
         when (Contains volume ":") (λ binds, Done (append binds volume)))
         (Some []);
       when (0 <? len binds)%nat (λ hostConfig,
         Done (docker.HostConfig.set_Binds binds hostConfig)) hostConfig)
  (* Privileged *)
  >>= when (negb (is_nil (Privileged config))) (λ hostConfig,
       v ← deref (Privileged config);
       Done (docker.HostConfig.set_Privileged v hostConfig))
  (* PublishAllPorts *)
  >>= when (negb (is_nil (PublishAllPorts config))) (λ hostConfig,
       v ← deref (PublishAllPorts config);
       Done (docker.HostConfig.set_PublishAllPorts v hostConfig))
  (* PortBindings *)
  >>= when (0 <? len (Ports config))%nat (λ hostConfig,
       for_range (elems (Ports config)) (λ configPort hostConfig,
         let key : docker.Port := PortBinding.Port configPort in
         let binding :=
           {| docker.PortBinding.HostIP := PortBinding.HostIp configPort;
              docker.PortBinding.HostPort := PortBinding.HostPort configPort |} in
         portBindings ←
           when (negb (has_key (docker.HostConfig.PortBindings hostConfig) key))
                (map_store key (Some []))
                (docker.HostConfig.PortBindings hostConfig);
         portBindings ←
           map_store key (append (map_read portBindings key) binding) portBindings;
         Done (docker.HostConfig.set_PortBindings portBindings hostConfig))
       (docker.HostConfig.set_PortBindings (Some ∅) hostConfig))
  (* Links *)
  >>= when (0 <? len (Links config))%nat (λ hostConfig,
       for_range (elems (Links config)) (λ link hostConfig,
         Done (docker.HostConfig.set_Links
                 (append (docker.HostConfig.Links hostConfig) (Link_String link))
                 hostConfig))
       (docker.HostConfig.set_Links (Some []) hostConfig))
  (* VolumesFrom *)
  >>= when (0 <? len (VolumesFrom config))%nat (λ hostConfig,
       for_range (elems (VolumesFrom config)) (λ volume hostConfig,
         Done (docker.HostConfig.set_VolumesFrom
                 (append (docker.HostConfig.VolumesFrom hostConfig)
                         (VolumeFrom_String volume))
                 hostConfig))
       (docker.HostConfig.set_VolumesFrom (Some []) hostConfig))
  (* Ulimits *)
  >>= when (0 <? len (Ulimits config))%nat (λ hostConfig,
       for_range (elems (Ulimits config)) (λ ulimit hostConfig,
         Done (docker.HostConfig.set_Ulimits
                 (append (docker.HostConfig.Ulimits hostConfig)
                         {| docker.ULimit.Name := ConfigUlimit.Name ulimit;
                            docker.ULimit.Soft := ConfigUlimit.Soft ulimit;
                            docker.ULimit.Hard := ConfigUlimit.Hard ulimit |})
                 hostConfig))
       (docker.HostConfig.set_Ulimits (Some []) hostConfig)).

End convert.

(** ** The assembled container

    [Container], [ContainerState], [NewImageNameFromString] and
    [NewContainerNameFromString] are declared in sibling files of package
    compose. The two records have the fields that the literal in
    [NewContainerFromDocker] sets; the two constructors of names and the
    type of timestamps ([time.Time]) are parameters. *)
Class Naming : Type := {
  Time : Type;
  ImageName : Type;
  NewImageNameFromString : string → ImageName;
  ContainerName : Type;
  NewContainerNameFromString : string → ContainerName
}.

(** [docker.State], the state of an inspected container. *)
Module docker_State.
Section fields.
Context `{Naming}.
Record t : Type := mk {
  Running : bool;
  Paused : bool;
  Restarting : bool;
  OOMKilled : bool;
  Pid : Z;
  ExitCode : Z;
  Error : string;
  StartedAt : Time;
  FinishedAt : Time
}.
End fields.
End docker_State.

(** [docker.Container] with all the fields [NewContainerFromDocker] reads:
    those that extraction reads too are the record [docker.Container.t],
    kept here as [Base]; the creation time and the state come besides. *)
Module docker_Container.
Section fields.
Context `{Naming}.
Record t : Type := mk {
  Base : docker.Container.t;
  Created : Time;
  State : docker_State.t
}.
End fields.
End docker_Container.

Module ContainerState.
Section fields.
Context `{Naming}.
Record t : Type := mk {
  Running : bool;
  Paused : bool;
  Restarting : bool;
  OOMKilled : bool;
  Pid : Z;
  ExitCode : Z;
  Error : string;
  StartedAt : Time;
  FinishedAt : Time
}.
End fields.
End ContainerState.

Module Container.
Section fields.
Context `{Naming} `{NameTypes}.
Record t : Type := mk {
  Id : string;
  Image : ImageName;
  ImageId : string;
  Name : ContainerName;
  Created : Time;
  State : ptr ContainerState.t;
  Config : ptr ConfigContainer.t;
  container : ptr docker_Container.t
}.
End fields.
End Container.

Section assemble.
Context `{MapRange} `{NameTypes} `{!Yaml} `{Naming}.

(** [NewContainerFromDocker] returns the pair of Go: the container or nil,
    and the error or nil. *)
Definition NewContainerFromDocker (dockerContainer : docker_Container.t)
  : ptr Container.t * option error :=
  let base := docker_Container.Base dockerContainer in
  match NewContainerConfigFromDocker base with
  | (_, Some err) => (nil, Some err)
  | (config, None) =>
      (Some {|
         Container.Id := docker.Container.ID base;
         Container.Image :=
           NewImageNameFromString
             (docker.Config.Image (docker.Container.Config base));
         Container.ImageId := docker.Container.Image base;
         Container.Name :=
           NewContainerNameFromString (docker.Container.Name base);
         Container.Created := docker_Container.Created dockerContainer;
         Container.State := Some {|
           ContainerState.Running :=
             docker_State.Running (docker_Container.State dockerContainer);
           ContainerState.Paused :=
             docker_State.Paused (docker_Container.State dockerContainer);
           ContainerState.Restarting :=
             docker_State.Restarting (docker_Container.State dockerContainer);
           ContainerState.OOMKilled :=
             docker_State.OOMKilled (docker_Container.State dockerContainer);
           ContainerState.Pid :=
             docker_State.Pid (docker_Container.State dockerContainer);
           ContainerState.ExitCode :=
             docker_State.ExitCode (docker_Container.State dockerContainer);
           ContainerState.Error :=
             docker_State.Error (docker_Container.State dockerContainer);
           ContainerState.StartedAt :=
             docker_State.StartedAt (docker_Container.State dockerContainer);
           ContainerState.FinishedAt :=
             docker_State.FinishedAt (docker_Container.State dockerContainer)
         |};
         Container.Config := config;
         Container.container := Some dockerContainer
       |}, None)
  end.

End assemble.

(** ** Instances of the parameters, for running the model *)

(** One order of visit: the order in which the map lists its entries. *)
Definition range_listed : MapRange :=
  {| map_range := λ V m, map_to_list m;
     map_range_perm := λ V m, reflexivity (map_to_list m) |}.

(** Names held in the form they render to. *)
Definition names_rendered : NameTypes :=
  {| Link := string; Link_String := λ s, s;
     VolumeFrom := string; VolumeFrom_String := λ s, s |}.

(** ** Sample inputs *)

(** A specification with the environment, volumes, port bindings and
    ulimits of the examples, the named volume and the bind mount each
    declared twice. *)
Definition sample_config : @ConfigContainer.t names_rendered := {|
  ConfigContainer.Image := Some "nginx";
  ConfigContainer.Cmd := None;
  ConfigContainer.Entrypoint := None;
  ConfigContainer.Hostname := None;
  ConfigContainer.Domainname := None;
  ConfigContainer.Workdir := None;
  ConfigContainer.User := None;
  ConfigContainer.Memory := None;
  ConfigContainer.MemorySwap := None;
  ConfigContainer.CpusetCpus := None;
  ConfigContainer.CpuShares := None;
  ConfigContainer.NetworkDisabled := None;
  ConfigContainer.Expose := None;
  ConfigContainer.Env := Some {[ "A" := "1"; "B" := "2" ]};
  ConfigContainer.Volumes :=
    Some ["/data"; "/host:/data"; "/data"; "/host:/data"];
  ConfigContainer.Dns := None;
  ConfigContainer.AddHost := None;
  ConfigContainer.Restart := None;
  ConfigContainer.Net := None;
  ConfigContainer.Pid := None;
  ConfigContainer.Privileged := None;
  ConfigContainer.PublishAllPorts := None;
  ConfigContainer.Ports :=
    Some [ {| PortBinding.Port := "80/tcp"; PortBinding.HostIp := "0.0.0.0";
              PortBinding.HostPort := "8080" |};
           {| PortBinding.Port := "80/tcp"; PortBinding.HostIp := "0.0.0.0";
              PortBinding.HostPort := "8081" |} ];
  ConfigContainer.Links := None;
  ConfigContainer.VolumesFrom := None;
  ConfigContainer.Ulimits :=
    Some [ {| ConfigUlimit.Name := "nofile"; ConfigUlimit.Soft := 1024;
              ConfigUlimit.Hard := 2048 |} ];
  ConfigContainer.Labels := None
|}.

(** An inspected container without the reserved label, and one whose
    reserved label no codec reads. *)
Definition sample_unmanaged : docker.Container.t := {|
  docker.Container.ID := "77b0";
  docker.Container.Image := "sha256:51d3";
  docker.Container.Name := "/cache";
  docker.Container.Config :=
    docker.Config.set_Labels (Some {[ "app" := "cache" ]}) docker.Config.zero
|}.

Definition sample_corrupted : docker.Container.t := {|
  docker.Container.ID := "0d9e";
  docker.Container.Image := "sha256:51d3";
  docker.Container.Name := "/queue";
  docker.Container.Config :=
    docker.Config.set_Labels (Some {[ "rocker-compose-config" := "labels: [" ]})
                             docker.Config.zero
|}.

(** A stored specification: labels only, one of them under the reserved
    prefix. *)
Definition sample_labels : gmap string string :=
  {[ "app" := "web"; "rocker-compose-id" := "7" ]}.

Definition sample_stored : @ConfigContainer.t names_rendered :=
  ConfigContainer.set_Labels (Some sample_labels) ConfigContainer.zero.

Definition sample_yaml : string :=
  "labels: {app: web, rocker-compose-id: '7'}".

(** A codec that knows one document, the stored specification. *)
Definition yaml_one_document : @Yaml names_rendered := {|
  Unmarshal := λ data out,
    if String.eqb data sample_yaml
    then (ConfigContainer.set_Labels (Some sample_labels) out, None)
    else (out, Some "yaml: unsupported document");
  Marshal := λ _, sample_yaml
|}.

(** An inspected container that carries the stored specification. *)
Definition sample_descriptor : docker.Container.t := {|
  docker.Container.ID := "4f2a";
  docker.Container.Image := "sha256:9c1e";
  docker.Container.Name := "/web";
  docker.Container.Config :=
    docker.Config.set_Labels
      (Some {[ "rocker-compose-config" := sample_yaml; "app" := "web" ]})
      (docker.Config.set_Image "nginx" docker.Config.zero)
|}.

(** * Vocabulary of the properties *)

Section vocabulary.
Context `{MapRange} `{NameTypes}.
Import ConfigContainer.

(** What [if p != nil { s.f = *p }] makes of the structure [s]. *)
Definition assign {A S} (p : ptr A) (set : A → S → S) (s : S) : S :=
  match p with Some v => set v s | None => s end.

(** A field of an output structure that mirrors an optional scalar: the
    scalar's value when there is one, and otherwise what the field holds in
    a structure nobody has written to. *)
Definition kept_or_copied {A} (scalar : ptr A) (untouched out : A) : Prop :=
  match scalar with
  | Some v => out = v
  | None => out = untouched
  end.

(** The named volumes and the binds among the entries of a volumes list. *)
Definition named_volumes (volumes : list string) : list string :=
  List.filter (λ volume, negb (Contains volume ":")) volumes.

Definition bind_mounts (volumes : list string) : list string :=
  List.filter (λ volume, Contains volume ":") volumes.

(** An entry of the environment as the runtime reads it. *)
Definition render_env (entry : string * string) : string :=
  Sprintf_eq entry.1 entry.2.

(** A ulimit of the specification as the runtime's triple. *)
Definition render_ulimit (ulimit : ConfigUlimit.t) : docker.ULimit.t :=
  {| docker.ULimit.Name := ConfigUlimit.Name ulimit;
     docker.ULimit.Soft := ConfigUlimit.Soft ulimit;
     docker.ULimit.Hard := ConfigUlimit.Hard ulimit |}.

(** The host ip/port pair of a declared port binding. *)
Definition binding_of (configPort : PortBinding.t) : docker.PortBinding.t :=
  {| docker.PortBinding.HostIP := PortBinding.HostIp configPort;
     docker.PortBinding.HostPort := PortBinding.HostPort configPort |}.

(** What one pass of the port-binding loop does to the mapping: the new
    binding goes to the end of the sequence of its key. *)
Definition bind_port (g : gmap string (slice docker.PortBinding.t))
    (configPort : PortBinding.t) : gmap string (slice docker.PortBinding.t) :=
  <[PortBinding.Port configPort :=
      Some (elems (default None (g !! PortBinding.Port configPort))
            ++ [binding_of configPort])%list]> g.

(** The entries of the port-binding list declared for a key. *)
Definition declared_for (key : docker.Port) (ports : list PortBinding.t)
  : list PortBinding.t :=
  List.filter (λ configPort, String.eqb (PortBinding.Port configPort) key) ports.

(** What [ToDockerApi] returns. *)
Definition restart_of (restart : ptr RestartPolicy.t) : docker.RestartPolicy.t :=
  match restart with
  | Some p =>
      {| docker.RestartPolicy.Name := RestartPolicy.Name p;
         docker.RestartPolicy.MaximumRetryCount :=
           RestartPolicy.MaximumRetryCount p |}
  | None => docker.RestartPolicy.zero
  end.

(** What [GetApiConfig] returns, field by field. *)
Definition apiConfig_of (config : ConfigContainer.t) : docker.Config.t := {|
  docker.Config.Hostname := default "" (Hostname config);
  docker.Config.Domainname := default "" (Domainname config);
  docker.Config.User := default "" (User config);
  docker.Config.Memory := default 0%Z (ConfigMemory.bytes <$> Memory config);
  docker.Config.MemorySwap :=
    default 0%Z (ConfigMemory.bytes <$> MemorySwap config);
  docker.Config.CPUShares := default 0%Z (CpuShares config);
  docker.Config.CPUSet := default "" (CpusetCpus config);
  docker.Config.ExposedPorts :=
    match Expose config with
    | Some ports => Some (list_to_set ports)
    | None => None
    end;
  docker.Config.Env :=
    match Env config with
    | Some env => Some (render_env <$> map_range env)
    | None => None
    end;
  docker.Config.Cmd :=
    match Cmd config with
    | Some cmd => ConfigCmd.Parts cmd
    | None => None
    end;
  docker.Config.Image := default "" (Image config);
  docker.Config.Volumes :=
    match Volumes config with
    | Some volumes =>
        let hostVolumes : gset string := list_to_set (named_volumes volumes) in
        if (0 <? size hostVolumes)%nat then Some hostVolumes else None
    | None => None
    end;
  docker.Config.WorkingDir := default "" (Workdir config);
  docker.Config.Entrypoint := Entrypoint config;
  docker.Config.NetworkDisabled := default false (NetworkDisabled config);
  docker.Config.Labels := Labels config
|}.

(** What [GetApiHostConfig] returns, field by field. *)
Definition hostConfig_of (config : ConfigContainer.t) : docker.HostConfig.t := {|
  docker.HostConfig.Binds :=
    (let binds := bind_mounts (elems (Volumes config)) in
     if (0 <? length binds)%nat then Some binds else None);
  docker.HostConfig.Links :=
    (if (0 <? len (Links config))%nat
     then Some (Link_String <$> elems (Links config)) else None);
  docker.HostConfig.PortBindings :=
    (if (0 <? len (Ports config))%nat
     then Some (foldl bind_port ∅ (elems (Ports config))) else None);
  docker.HostConfig.Privileged := default false (Privileged config);
  docker.HostConfig.PublishAllPorts := default false (PublishAllPorts config);
  docker.HostConfig.DNS := Dns config;
  docker.HostConfig.ExtraHosts := AddHost config;
  docker.HostConfig.VolumesFrom :=
    (if (0 <? len (VolumesFrom config))%nat
     then Some (VolumeFrom_String <$> elems (VolumesFrom config)) else None);
  docker.HostConfig.NetworkMode := default "" (Net config);
  docker.HostConfig.PidMode := default "" (Pid config);
  docker.HostConfig.RestartPolicy := restart_of (Restart config);
  docker.HostConfig.Ulimits :=
    (if (0 <? len (Ulimits config))%nat
     then Some (render_ulimit <$> elems (Ulimits config)) else None);
  docker.HostConfig.Memory :=
    default 0%Z (ConfigMemory.bytes <$> Memory config);
  docker.HostConfig.MemorySwap :=
    default 0%Z (ConfigMemory.bytes <$> MemorySwap config);
  docker.HostConfig.CPUSet := default "" (CpusetCpus config)
|}.

(** The value a descriptor holds under the reserved key, if any. *)
Definition reserved_label (apiContainer : docker.Container.t) : option string :=
  map_index (docker.Config.Labels (docker.Container.Config apiContainer))
            "rocker-compose-config".

(** A label key under the reserved prefix. *)
Definition reserved (k : string) : bool := HasPrefix k "rocker-compose-".

(** The labels without the entries under the reserved prefix. *)
Definition strip_reserved (labels : gmap string string) : gmap string string :=
  filter (λ entry, reserved entry.1 = false) labels.

(** What one pass of the cleanup loop does to the labels. *)
Definition delete_reserved (labels : gmap string string)
    (entry : string * string) : gmap string string :=
  if reserved entry.1 then delete entry.1 labels else labels.

(** The specification without the reserved entries of its labels. *)
Definition strip_labels (container : ConfigContainer.t) : ConfigContainer.t :=
  match Labels container with
  | Some labels => set_Labels (Some (strip_reserved labels)) container
  | None => container
  end.

(** The two errors of extraction, as [fmt.Errorf] words them. *)
Definition ConfigMissing : error :=
  "Expecting container to have label 'rocker-compose-config' to parse it".

Definition ConfigParseError (name : string) (cause : error) : error :=
  "Failed to parse YAML config for container " +:+ name +:+ ", error: " +:+ cause.

End vocabulary.

(** ** Further vocabulary and sample inputs *)

(** Membership in a Go set that may be nil. *)
Definition set_has (v : string) (m : goset) : Prop :=
  match m with Some g => v ∈ g | None => False end.

(** The number of bindings a port-binding mapping holds, over all keys. *)
Definition bindings_total (g : gmap string (slice docker.PortBinding.t)) : nat :=
  sum_list_with (λ entry, len entry.2) (map_to_list g).

(** Timestamps as seconds, names as the strings they are made from. *)
Definition naming_plain : Naming :=
  {| Time := Z;
     ImageName := string; NewImageNameFromString := λ s, s;
     ContainerName := string; NewContainerNameFromString := λ s, s |}.

(** The inspected container of the samples, running. *)
Definition sample_inspected : @docker_Container.t naming_plain :=
  @docker_Container.mk naming_plain
    sample_descriptor
    (* Created *) 1445000000%Z
    (@docker_State.mk naming_plain
       (* Running *) true (* Paused *) false (* Restarting *) false
       (* OOMKilled *) false (* Pid *) 4242%Z (* ExitCode *) 0%Z
       (* Error *) "" (* StartedAt *) 1445000001%Z (* FinishedAt *) 0%Z).

(** Another container that carries the same stored specification under
    another name, id and set of further labels. *)
Definition sample_descriptor_twin : docker.Container.t := {|
  docker.Container.ID := "b81c";
  docker.Container.Image := "sha256:9c1e";
  docker.Container.Name := "/web";
  docker.Container.Config :=
    docker.Config.set_Labels
      (Some {[ "rocker-compose-config" := sample_yaml; "tier" := "front" ]})
      (docker.Config.set_Hostname "web-2" docker.Config.zero)
|}.

(** A stored specification without reserved labels, its document, a codec
    that knows that document, and a container that carries it. *)
Definition sample_clean_labels : gmap string string := {[ "app" := "web" ]}.

Definition sample_clean : @ConfigContainer.t names_rendered :=
  ConfigContainer.set_Labels (Some sample_clean_labels) ConfigContainer.zero.

Definition sample_clean_yaml : string := "labels: {app: web}".

Definition yaml_clean_document : @Yaml names_rendered := {|
  Unmarshal := λ data out,
    if String.eqb data sample_clean_yaml
    then (ConfigContainer.set_Labels (Some sample_clean_labels) out, None)
    else (out, Some "yaml: unsupported document");
  Marshal := λ _, sample_clean_yaml
|}.

Definition sample_clean_descriptor : docker.Container.t := {|
  docker.Container.ID := "e5a3";
  docker.Container.Image := "sha256:9c1e";
  docker.Container.Name := "/web";
  docker.Container.Config :=
    docker.Config.set_Labels
      (Some {[ "rocker-compose-config" := sample_clean_yaml ]})
      docker.Config.zero
|}.

(** A container whose configuration has no label mapping at all. *)
Definition sample_unlabelled : docker.Container.t := {|
  docker.Container.ID := "19f7";
  docker.Container.Image := "sha256:51d3";
  docker.Container.Name := "/scratch";
  docker.Container.Config := docker.Config.zero
|}.

(** A codec that knows both stored documents. *)
Definition yaml_two_documents : @Yaml names_rendered := {|
  Unmarshal := λ data out,
    if String.eqb data sample_yaml
    then (ConfigContainer.set_Labels (Some sample_labels) out, None)
    else if String.eqb data sample_clean_yaml
    then (ConfigContainer.set_Labels (Some sample_clean_labels) out, None)
    else (out, Some "yaml: unsupported document");
  Marshal := λ container,
    match map_index (ConfigContainer.Labels container) "rocker-compose-id" with
    | Some _ => sample_yaml
    | None => sample_clean_yaml
    end
|}.

(** * Properties *)

(** ** The Go fragment *)

Example Contains_bind : Contains "/host:/data" ":" = true.
Proof. reflexivity. Qed.
Example Contains_named : Contains "/data" ":" = false.
Proof. reflexivity. Qed.
Example HasPrefix_reserved : HasPrefix "rocker-compose-config" "rocker-compose-" = true.
Proof. reflexivity. Qed.

Lemma when_deref {A S} (p : ptr A) (set : A → S → S) (s : S) :
  when (negb (is_nil p)) (λ s, v ← deref p; Done (set v s)) s
  = Done (assign p set s).
Proof. by destruct p. Qed.

Lemma when_Int64 {S} (p : ptr ConfigMemory.t) (set : Z → S → S) (s : S) :
  when (negb (is_nil p)) (λ s, v ← ConfigMemory.Int64 p; Done (set v s)) s
  = Done (assign p (λ q, set (ConfigMemory.bytes q)) s).
Proof. by destruct p. Qed.

Lemma assign_proj {A S B} (proj : S → B) (p : ptr A) (set : A → S → S) (s : S) :
  (∀ v s, proj (set v s) = proj s) → proj (assign p set s) = proj s.
Proof. intros Hset. destruct p; simpl; auto. Qed.

Lemma for_range_ext {A S} (xs : list A) (body body' : A → S → outcome S) (s : S) :
  (∀ x s, body x s = body' x s) → for_range xs body s = for_range xs body' s.
Proof.
  intros Hbody. revert s. induction xs as [|x xs IH]; intros s; simpl; [done|].
  rewrite Hbody. destruct (body' x s); simpl; auto.
Qed.

(** A loop that appends one rendered element per entry to a slice field. *)
Lemma append_loop {A B S} (get : S → slice B) (set : slice B → S → S)
    (f : A → B) (xs : list A) (s : S) (l : list B) :
  (∀ v s, get (set v s) = v) →
  (∀ v w s, set v (set w s) = set v s) →
  for_range xs (λ x s, Done (set (append (get s) (f x)) s)) (set (Some l) s)
  = Done (set (Some (l ++ map f xs)) s).
Proof.
  intros Hget Hset. revert l.
  induction xs as [|x xs IH]; intros l; simpl.
  - by rewrite app_nil_r.
  - rewrite Hget, Hset. unfold append; simpl. rewrite IH.
    by rewrite <- app_assoc.
Qed.

(** The loop over the volumes that fills the set of named volumes. *)
Lemma volumes_loop (xs : list string) (g : gset string) :
  for_range xs (λ volume, when (negb (Contains volume ":")) (set_store volume))
            (Some g)
  = Done (Some (list_to_set (List.filter (λ v, negb (Contains v ":")) xs) ∪ g)).
Proof.
  revert g. induction xs as [|x xs IH]; intros g; simpl.
  - by rewrite (left_id_L ∅ (∪)).
  - destruct (Contains x ":"); simpl; rewrite IH; [done|].
    by rewrite (assoc_L (∪)), (comm_L (∪) _ {[x]}).
Qed.

(** The loop over the volumes that collects the binds. *)
Lemma binds_loop (xs l : list string) :
  for_range xs (λ volume, when (Contains volume ":")
                            (λ binds, Done (append binds volume)))
            (Some l)
  = Done (Some (l ++ List.filter (λ v, Contains v ":") xs)).
Proof.
  revert l. induction xs as [|x xs IH]; intros l; simpl.
  - by rewrite app_nil_r.
  - destruct (Contains x ":"); simpl; unfold append; simpl; rewrite IH;
      by rewrite <- ?app_assoc.
Qed.

(** The loop over the exposed ports. *)
Lemma expose_loop (xs : list string) (s : docker.Config.t) (g : gset string) :
  for_range xs (λ portBinding apiConfig,
      let port : docker.Port := portBinding in
      ports ← set_store port (docker.Config.ExposedPorts apiConfig);
      Done (docker.Config.set_ExposedPorts ports apiConfig))
    (docker.Config.set_ExposedPorts (Some g) s)
  = Done (docker.Config.set_ExposedPorts (Some (list_to_set xs ∪ g)) s).
Proof.
  revert g. induction xs as [|x xs IH]; intros g; simpl.
  - by rewrite (left_id_L ∅ (∪)).
  - change (docker.Config.set_ExposedPorts (Some ({[x]} ∪ g))
              (docker.Config.set_ExposedPorts (Some g) s))
      with (docker.Config.set_ExposedPorts (Some ({[x]} ∪ g)) s).
    rewrite IH. by rewrite (assoc_L (∪)), (comm_L (∪) _ {[x]}).
Qed.

Lemma ports_loop (ps : list PortBinding.t) (s : docker.HostConfig.t)
    (g : gmap string (slice docker.PortBinding.t)) :
  for_range ps (λ configPort hostConfig,
      let key : docker.Port := PortBinding.Port configPort in
      let binding :=
        {| docker.PortBinding.HostIP := PortBinding.HostIp configPort;
           docker.PortBinding.HostPort := PortBinding.HostPort configPort |} in
      portBindings ←
        when (negb (has_key (docker.HostConfig.PortBindings hostConfig) key))
             (map_store key (Some []))
             (docker.HostConfig.PortBindings hostConfig);
      portBindings ←
        map_store key (append (map_read portBindings key) binding) portBindings;
      Done (docker.HostConfig.set_PortBindings portBindings hostConfig))
    (docker.HostConfig.set_PortBindings (Some g) s)
  = Done (docker.HostConfig.set_PortBindings (Some (foldl bind_port g ps)) s).
Proof.
  revert g. induction ps as [|p ps IH]; intros g; [done|].
  match goal with |- for_range _ ?b _ = _ => set (body := b) in * end.
  change (body p (docker.HostConfig.set_PortBindings (Some g) s)
            >>= for_range ps body
          = Done (docker.HostConfig.set_PortBindings
                    (Some (foldl bind_port (bind_port g p) ps)) s)).
  assert (body p (docker.HostConfig.set_PortBindings (Some g) s)
          = Done (docker.HostConfig.set_PortBindings (Some (bind_port g p)) s))
    as ->.
  { subst body. unfold bind_port, has_key, map_read; simpl.
    destruct (g !! PortBinding.Port p) as [sl|] eqn:Hk; simpl.
    - by rewrite Hk.
    - by rewrite lookup_insert_eq, insert_insert_eq. }
  apply IH.
Qed.

Lemma bind_Done {A B} (a : A) (f : A → outcome B) : Done a >>= f = f a.
Proof. reflexivity. Qed.

Lemma if_proj {S B} (proj : S → B) (b : bool) (s s' : S) :
  proj s' = proj s → proj (if b then s' else s) = proj s.
Proof. by destruct b. Qed.

(** A loop that runs only over a non-empty list, and then starts the
    field at the empty slice. *)
Lemma append_step {A B S} (get : S → slice B) (set : slice B → S → S)
    (f : A → B) (xs : slice A) (s : S) :
  (∀ v s, get (set v s) = v) →
  (∀ v w s, set v (set w s) = set v s) →
  when (0 <? len xs)%nat (λ s,
    for_range (elems xs) (λ x s, Done (set (append (get s) (f x)) s))
              (set (Some []) s)) s
  = Done (if (0 <? len xs)%nat then set (Some (map f (elems xs))) s else s).
Proof.
  intros Hget Hset. unfold when. destruct (0 <? len xs)%nat; [|done].
  by rewrite append_loop.
Qed.

(** Two [docker.Config] structures with the same fields are the same. *)
Lemma Config_ext (a b : docker.Config.t) :
  docker.Config.Hostname a = docker.Config.Hostname b →
  docker.Config.Domainname a = docker.Config.Domainname b →
  docker.Config.User a = docker.Config.User b →
  docker.Config.Memory a = docker.Config.Memory b →
  docker.Config.MemorySwap a = docker.Config.MemorySwap b →
  docker.Config.CPUShares a = docker.Config.CPUShares b →
  docker.Config.CPUSet a = docker.Config.CPUSet b →
  docker.Config.ExposedPorts a = docker.Config.ExposedPorts b →
  docker.Config.Env a = docker.Config.Env b →
  docker.Config.Cmd a = docker.Config.Cmd b →
  docker.Config.Image a = docker.Config.Image b →
  docker.Config.Volumes a = docker.Config.Volumes b →
  docker.Config.WorkingDir a = docker.Config.WorkingDir b →
  docker.Config.Entrypoint a = docker.Config.Entrypoint b →
  docker.Config.NetworkDisabled a = docker.Config.NetworkDisabled b →
  docker.Config.Labels a = docker.Config.Labels b →
  a = b.
Proof. destruct a, b; simpl; intros; by subst. Qed.

(** Two [docker.HostConfig] structures with the same fields are the same. *)
Lemma HostConfig_ext (a b : docker.HostConfig.t) :
  docker.HostConfig.Binds a = docker.HostConfig.Binds b →
  docker.HostConfig.Links a = docker.HostConfig.Links b →
  docker.HostConfig.PortBindings a = docker.HostConfig.PortBindings b →
  docker.HostConfig.Privileged a = docker.HostConfig.Privileged b →
  docker.HostConfig.PublishAllPorts a = docker.HostConfig.PublishAllPorts b →
  docker.HostConfig.DNS a = docker.HostConfig.DNS b →
  docker.HostConfig.ExtraHosts a = docker.HostConfig.ExtraHosts b →
  docker.HostConfig.VolumesFrom a = docker.HostConfig.VolumesFrom b →
  docker.HostConfig.NetworkMode a = docker.HostConfig.NetworkMode b →
  docker.HostConfig.PidMode a = docker.HostConfig.PidMode b →
  docker.HostConfig.RestartPolicy a = docker.HostConfig.RestartPolicy b →
  docker.HostConfig.Ulimits a = docker.HostConfig.Ulimits b →
  docker.HostConfig.Memory a = docker.HostConfig.Memory b →
  docker.HostConfig.MemorySwap a = docker.HostConfig.MemorySwap b →
  docker.HostConfig.CPUSet a = docker.HostConfig.CPUSet b →
  a = b.
Proof. destruct a, b; simpl; intros; by subst. Qed.

(** ** The two projections in closed form *)

Section closed_forms.
Context `{MapRange} `{NameTypes}.
Import ConfigContainer.

Ltac peel :=
  repeat first
    [ rewrite assign_proj by reflexivity
    | rewrite if_proj by reflexivity
    | match goal with
      | |- _ (assign ?p _ _) = _ => destruct p; simpl
      | |- _ (if ?b then _ else _) = _ => destruct b; simpl
      end ];
  try reflexivity.

Theorem GetApiConfig_returns (config : ConfigContainer.t) :
  GetApiConfig config = Done (apiConfig_of config).
Proof.
  unfold GetApiConfig; cbv zeta.
  repeat (rewrite bind_Done; rewrite ?when_deref, ?when_Int64).
  unfold apiConfig_of, named_volumes.
  destruct (Expose config) as [ports|]; cbn [is_nil negb when elems];
    rewrite ?expose_loop, ?bind_Done, ?(right_id_L ∅ (∪));
    (destruct (Env config) as [env|]; cbn [is_nil negb when map_entries];
     [ rewrite (for_range_ext _ _ (λ entry apiConfig,
                 Done (docker.Config.set_Env
                         (append (docker.Config.Env apiConfig)
                                 (render_env entry)) apiConfig)))
         by (by intros [] ?);
       rewrite (append_loop docker.Config.Env docker.Config.set_Env)
         by reflexivity
     | ]; rewrite bind_Done;
     (destruct (Volumes config) as [volumes|]; cbn [is_nil negb when elems];
      [ rewrite volumes_loop, bind_Done, (right_id_L ∅ (∪));
        cbn [set_len];
        destruct (0 <? size _)%nat; cbn [when]
      | ])).
  all: f_equal; apply Config_ext; simpl; peel.
Qed.

Lemma ToDockerApi_returns (restart : ptr RestartPolicy.t) :
  RestartPolicy.ToDockerApi restart = Done (restart_of restart).
Proof. by destruct restart. Qed.

Lemma Int64_returns (m : ptr ConfigMemory.t) :
  ConfigMemory.Int64 m = Done (default 0%Z (ConfigMemory.bytes <$> m)).
Proof. by destruct m. Qed.

Lemma bind_returns {A B} (m : outcome A) (a : A) (f : A → outcome B) :
  m = Done a → m >>= f = f a.
Proof. by intros ->. Qed.

Lemma when_Done {S} (b : bool) (f : S → S) (s : S) :
  when b (λ s, Done (f s)) s = Done (if b then f s else s).
Proof. by destruct b. Qed.

Lemma when_returns {S} (b : bool) (body : S → outcome S) (s s' : S) :
  body s = Done s' → when b body s = Done (if b then s' else s).
Proof. intros Hbody. by destruct b. Qed.

Theorem GetApiHostConfig_returns (config : ConfigContainer.t) :
  GetApiHostConfig config = Done (hostConfig_of config).
Proof.
  unfold GetApiHostConfig.
  rewrite (bind_returns _ _ _ (ToDockerApi_returns _)); cbv beta.
  rewrite (bind_returns _ _ _ (Int64_returns _)); cbv beta.
  rewrite (bind_returns _ _ _ (Int64_returns _)); cbv beta zeta.
  repeat (rewrite bind_Done; rewrite ?when_deref).
  cbv beta. rewrite binds_loop, bind_Done, when_Done.
  change (len (Some ([] ++ ?l))) with (length l).
  change ([] ++ ?l) with l.
  repeat (rewrite bind_Done; rewrite ?when_deref).
  erewrite when_returns by (cbv beta; apply ports_loop).
  rewrite bind_Done,
    (append_step docker.HostConfig.Links docker.HostConfig.set_Links)
    by reflexivity.
  rewrite bind_Done,
    (append_step docker.HostConfig.VolumesFrom docker.HostConfig.set_VolumesFrom)
    by reflexivity.
  rewrite bind_Done,
    (append_step docker.HostConfig.Ulimits docker.HostConfig.set_Ulimits
                 render_ulimit)
    by reflexivity.
  unfold hostConfig_of, bind_mounts.
  f_equal; apply HostConfig_ext; simpl; peel.
Qed.
End closed_forms.

(** ** Extraction in closed form *)

Section extraction.
Context `{MapRange} `{NameTypes} `{!Yaml}.
Import ConfigContainer.

Lemma set_Labels_same (container : ConfigContainer.t) :
  set_Labels (Labels container) container = container.
Proof. by destruct container. Qed.

(** The cleanup loop touches the labels only, and deletes the reserved
    keys it visits. *)
Lemma cleanup_loop (entries : list (string * string))
    (container : ConfigContainer.t) (labels : gmap string string) :
  Labels container = Some labels →
  foldl (λ container '(k, _),
           if HasPrefix k "rocker-compose-" then
             set_Labels (map_delete k (Labels container)) container
           else container)
        container entries
  = set_Labels (Some (foldl delete_reserved labels entries)) container.
Proof.
  revert container labels.
  induction entries as [|[k v] entries IH]; intros container labels Hl; simpl.
  - by rewrite <- Hl, set_Labels_same.
  - unfold delete_reserved at 2, reserved; simpl.
    destruct (HasPrefix k "rocker-compose-"); [|by apply IH].
    rewrite (IH _ (delete k labels)) by (by rewrite Hl).
    by rewrite Hl.
Qed.

Lemma lookup_delete_reserved (entries : list (string * string))
    (labels : gmap string string) (k : string) :
  foldl delete_reserved labels entries !! k
  = if reserved k && bool_decide (k ∈ entries.*1) then None else labels !! k.
Proof.
  revert labels. induction entries as [|[k' v] entries IH]; intros labels.
  - by rewrite andb_false_r.
  - cbn [foldl fmap list_fmap fst]. rewrite IH. unfold delete_reserved; simpl.
    destruct (decide (k = k')) as [->|Hne].
    + rewrite (bool_decide_eq_true_2 (k' ∈ k' :: entries.*1))
        by apply list_elem_of_here.
      rewrite andb_true_r.
      destruct (reserved k'); simpl; [|done].
      rewrite lookup_delete_eq. by destruct (bool_decide _).
    + assert (bool_decide (k ∈ k' :: entries.*1) = bool_decide (k ∈ entries.*1))
        as ->.
      { apply bool_decide_ext. rewrite elem_of_cons. intuition congruence. }
      destruct (reserved k'); [|done].
      by rewrite lookup_delete_ne.
Qed.

(** Ranging over the labels and deleting the reserved keys leaves the
    labels without their reserved entries, whatever the order of visit. *)
Lemma cleanup_labels (labels : gmap string string) :
  foldl delete_reserved labels (map_range labels) = strip_reserved labels.
Proof.
  apply map_eq; intros k. rewrite lookup_delete_reserved.
  unfold strip_reserved. rewrite map_lookup_filter.
  destruct (labels !! k) as [v|] eqn:Hk; simpl.
  - assert (k ∈ (map_range labels).*1) as Hin.
    { apply list_elem_of_fmap. exists (k, v). split; [done|].
      rewrite map_range_perm. by apply elem_of_map_to_list. }
    rewrite (bool_decide_eq_true_2 _ Hin), andb_true_r.
    by destruct (reserved k).
  - by destruct (_ && _).
Qed.

(** The three ways out of [NewContainerConfigFromDocker]. *)
Lemma extraction_missing (apiContainer : docker.Container.t) :
  reserved_label apiContainer = None →
  NewContainerConfigFromDocker apiContainer
  = (nil, Some "Expecting container to have label 'rocker-compose-config' to parse it").
Proof.
  unfold reserved_label, NewContainerConfigFromDocker. by intros ->.
Qed.

Lemma extraction_unparsable (apiContainer : docker.Container.t)
    (yamlData : string) (partial : ConfigContainer.t) (cause : error) :
  reserved_label apiContainer = Some yamlData →
  Unmarshal yamlData ConfigContainer.zero = (partial, Some cause) →
  NewContainerConfigFromDocker apiContainer
  = (nil, Some ("Failed to parse YAML config for container "
                +:+ docker.Container.Name apiContainer
                +:+ ", error: " +:+ cause)).
Proof.
  unfold reserved_label, NewContainerConfigFromDocker. by intros -> ->.
Qed.

Lemma extraction_parsed (apiContainer : docker.Container.t)
    (yamlData : string) (container : ConfigContainer.t) :
  reserved_label apiContainer = Some yamlData →
  Unmarshal yamlData ConfigContainer.zero = (container, None) →
  NewContainerConfigFromDocker apiContainer
  = (Some (strip_labels container), None).
Proof.
  unfold reserved_label, NewContainerConfigFromDocker. intros -> ->.
  unfold strip_labels.
  destruct (Labels container) as [labels|] eqn:Hl; simpl; [|done].
  by rewrite (cleanup_loop _ _ labels), cleanup_labels.
Qed.
End extraction.

(** ** Absent fields, totality, memory *)

Section scalars.
Context `{MapRange} `{NameTypes}.
Import ConfigContainer.

Ltac by_cases_on_scalars :=
  unfold kept_or_copied; simpl;
  repeat split;
  repeat match goal with
         | |- context [match ?p with _ => _ end] => destruct p; simpl
         end;
  reflexivity.

(** C1. For every specification, each optional scalar (hostname, domain
    name, working directory, user, memory, memory-swap, CPU set, CPU
    shares, network-disabled, privileged, publish-all-ports) that is
    absent leaves its field of the general config and of the host config
    at the value of an untouched structure, and one that is present is
    copied to it. *)
Theorem absent_scalar_not_materialized (config : ConfigContainer.t) :
  ∃ apiConfig hostConfig,
    GetApiConfig config = Done apiConfig ∧
    GetApiHostConfig config = Done hostConfig ∧
    kept_or_copied (Hostname config)
      (docker.Config.Hostname docker.Config.zero)
      (docker.Config.Hostname apiConfig) ∧
    kept_or_copied (Domainname config)
      (docker.Config.Domainname docker.Config.zero)
      (docker.Config.Domainname apiConfig) ∧
    kept_or_copied (Workdir config)
      (docker.Config.WorkingDir docker.Config.zero)
      (docker.Config.WorkingDir apiConfig) ∧
    kept_or_copied (User config)
      (docker.Config.User docker.Config.zero)
      (docker.Config.User apiConfig) ∧
    kept_or_copied (ConfigMemory.bytes <$> Memory config)
      (docker.Config.Memory docker.Config.zero)
      (docker.Config.Memory apiConfig) ∧
    kept_or_copied (ConfigMemory.bytes <$> MemorySwap config)
      (docker.Config.MemorySwap docker.Config.zero)
      (docker.Config.MemorySwap apiConfig) ∧
    kept_or_copied (CpusetCpus config)
      (docker.Config.CPUSet docker.Config.zero)
      (docker.Config.CPUSet apiConfig) ∧
    kept_or_copied (CpuShares config)
      (docker.Config.CPUShares docker.Config.zero)
      (docker.Config.CPUShares apiConfig) ∧
    kept_or_copied (NetworkDisabled config)
      (docker.Config.NetworkDisabled docker.Config.zero)
      (docker.Config.NetworkDisabled apiConfig) ∧
    kept_or_copied (ConfigMemory.bytes <$> Memory config)
      (docker.HostConfig.Memory docker.HostConfig.zero)
      (docker.HostConfig.Memory hostConfig) ∧
    kept_or_copied (ConfigMemory.bytes <$> MemorySwap config)
      (docker.HostConfig.MemorySwap docker.HostConfig.zero)
      (docker.HostConfig.MemorySwap hostConfig) ∧
    kept_or_copied (CpusetCpus config)
      (docker.HostConfig.CPUSet docker.HostConfig.zero)
      (docker.HostConfig.CPUSet hostConfig) ∧
    kept_or_copied (Privileged config)
      (docker.HostConfig.Privileged docker.HostConfig.zero)
      (docker.HostConfig.Privileged hostConfig) ∧
    kept_or_copied (PublishAllPorts config)
      (docker.HostConfig.PublishAllPorts docker.HostConfig.zero)
      (docker.HostConfig.PublishAllPorts hostConfig).
Proof.
  exists (apiConfig_of config), (hostConfig_of config).
  split; [apply GetApiConfig_returns|].
  split; [apply GetApiHostConfig_returns|].
  by_cases_on_scalars.
Qed.

(** C2. Both projections return on every specification, also on one
    without memory, memory-swap or restart policy: neither has a path
    that panics. *)
Theorem projections_total (config : ConfigContainer.t) :
  (∃ apiConfig, GetApiConfig config = Done apiConfig) ∧
  (∃ hostConfig, GetApiHostConfig config = Done hostConfig) ∧
  GetApiConfig config ≠ Panic ∧
  GetApiHostConfig config ≠ Panic.
Proof.
  rewrite GetApiConfig_returns, GetApiHostConfig_returns.
  repeat split; eauto; discriminate.
Qed.

(** C3. Memory and memory-swap reach the host config as they reach the
    general config: the same resolved count of bytes in both when the
    limit is present, and both fields as in an untouched structure when
    it is absent. *)
Theorem memory_resolved_alike (config : ConfigContainer.t) :
  ∃ apiConfig hostConfig,
    GetApiConfig config = Done apiConfig ∧
    GetApiHostConfig config = Done hostConfig ∧
    docker.HostConfig.Memory hostConfig = docker.Config.Memory apiConfig ∧
    docker.HostConfig.MemorySwap hostConfig
    = docker.Config.MemorySwap apiConfig ∧
    match Memory config with
    | Some limit =>
        ConfigMemory.Int64 (Some limit)
        = Done (docker.Config.Memory apiConfig)
    | None =>
        docker.Config.Memory apiConfig
        = docker.Config.Memory docker.Config.zero ∧
        docker.HostConfig.Memory hostConfig
        = docker.HostConfig.Memory docker.HostConfig.zero
    end ∧
    match MemorySwap config with
    | Some limit =>
        ConfigMemory.Int64 (Some limit)
        = Done (docker.Config.MemorySwap apiConfig)
    | None =>
        docker.Config.MemorySwap apiConfig
        = docker.Config.MemorySwap docker.Config.zero ∧
        docker.HostConfig.MemorySwap hostConfig
        = docker.HostConfig.MemorySwap docker.HostConfig.zero
    end.
Proof.
  exists (apiConfig_of config), (hostConfig_of config).
  split; [apply GetApiConfig_returns|].
  split; [apply GetApiHostConfig_returns|].
  simpl. destruct (Memory config), (MemorySwap config); simpl; auto.
Qed.
End scalars.

(** ** Volumes, environment, port bindings *)

Lemma list_to_set_remove_dups (l : list string) :
  list_to_set (remove_dups l) =@{gset string} list_to_set l.
Proof.
  apply set_eq; intros x.
  by rewrite !elem_of_list_to_set, elem_of_remove_dups.
Qed.

Lemma size_list_to_set_dups (l : list string) :
  size (list_to_set l : gset string) = length (remove_dups l).
Proof.
  rewrite <- list_to_set_remove_dups.
  apply size_list_to_set, NoDup_remove_dups.
Qed.

Lemma size_list_to_set_pos (l : list string) :
  (0 <? size (list_to_set l : gset string))%nat
  = match l with [] => false | _ :: _ => true end.
Proof.
  rewrite size_list_to_set_dups. destruct l as [|x l]; [done|].
  apply Nat.ltb_lt.
  assert (x ∈ remove_dups (x :: l)) as Hx
    by (apply elem_of_remove_dups, list_elem_of_here).
  destruct (remove_dups (x :: l)); [by apply not_elem_of_nil in Hx|].
  simpl; lia.
Qed.

Lemma length_pos {A} (l : list A) :
  (0 <? length l)%nat = match l with [] => false | _ :: _ => true end.
Proof. by destruct l. Qed.

Lemma elem_of_named_volumes (volumes : list string) (v : string) :
  v ∈ named_volumes volumes ↔ v ∈ volumes ∧ Contains v ":" = false.
Proof.
  unfold named_volumes. rewrite !list_elem_of_In, filter_In.
  by rewrite negb_true_iff.
Qed.

Lemma elem_of_bind_mounts (volumes : list string) (v : string) :
  v ∈ bind_mounts volumes ↔ v ∈ volumes ∧ Contains v ":" = true.
Proof. unfold bind_mounts. by rewrite !list_elem_of_In, filter_In. Qed.

Lemma count_occ_bind_mounts (volumes : list string) (v : string) :
  Contains v ":" = true →
  count_occ String.string_dec (bind_mounts volumes) v
  = count_occ String.string_dec volumes v.
Proof.
  intros Hv. unfold bind_mounts.
  induction volumes as [|x volumes IH]; simpl; [done|].
  destruct (String.string_dec x v) as [->|Hne].
  - rewrite Hv; simpl. destruct (String.string_dec v v); congruence.
  - destruct (Contains x ":"); simpl; [|done].
    destruct (String.string_dec x v); congruence.
Qed.

Lemma lookup_bind_ports (ports : list PortBinding.t)
    (g : gmap string (slice docker.PortBinding.t)) (key : docker.Port) :
  foldl bind_port g ports !! key
  = match declared_for key ports with
    | [] => g !! key
    | declared =>
        Some (Some (elems (default None (g !! key)) ++ (binding_of <$> declared)))
    end.
Proof.
  revert g. induction ports as [|p ports IH]; intros g; [done|].
  cbn [foldl]. rewrite IH. unfold declared_for; cbn [List.filter].
  fold (declared_for key ports). unfold bind_port at 1 2.
  destruct (String.eqb_spec (PortBinding.Port p) key) as [->|Hne].
  - rewrite lookup_insert_eq.
    destruct (declared_for key ports) as [|d declared]; [done|].
    change (elems (default None (Some (Some ?l)))) with l.
    by rewrite <- app_assoc.
  - by rewrite lookup_insert_ne.
Qed.

Section collections.
Context `{MapRange} `{NameTypes}.
Import ConfigContainer.

(** C6. With a volumes list present, the volumes set of the general
    config holds exactly the entries without [":"], and is left out when
    there is none; the binds of the host config are exactly the entries
    with [":"], as they are and in the order of the list, and are left
    out when there is none. *)
Theorem volumes_split_by_separator (config : ConfigContainer.t)
    (volumes : list string) :
  Volumes config = Some volumes →
  ∃ apiConfig hostConfig,
    GetApiConfig config = Done apiConfig ∧
    GetApiHostConfig config = Done hostConfig ∧
    docker.Config.Volumes apiConfig
    = match named_volumes volumes with
      | [] => None
      | named => Some (list_to_set named)
      end ∧
    (∀ hostVolumes v,
       docker.Config.Volumes apiConfig = Some hostVolumes →
       v ∈ hostVolumes ↔ v ∈ volumes ∧ Contains v ":" = false) ∧
    docker.HostConfig.Binds hostConfig
    = match bind_mounts volumes with
      | [] => None
      | binds => Some binds
      end ∧
    (∀ v, v ∈ bind_mounts volumes ↔ v ∈ volumes ∧ Contains v ":" = true) ∧
    sublist (bind_mounts volumes) volumes.
Proof.
  intros Hvolumes.
  exists (apiConfig_of config), (hostConfig_of config).
  split; [apply GetApiConfig_returns|].
  split; [apply GetApiHostConfig_returns|].
  simpl; rewrite Hvolumes; cbn [elems default from_option id].
  rewrite size_list_to_set_pos, length_pos.
  split; [by destruct (named_volumes volumes)|].
  split.
  { intros hostVolumes v Hset.
    assert (hostVolumes = list_to_set (named_volumes volumes)) as ->
      by (destruct (named_volumes volumes); congruence).
    by rewrite elem_of_list_to_set, elem_of_named_volumes. }
  split; [by destruct (bind_mounts volumes)|].
  split; [apply elem_of_bind_mounts|].
  unfold bind_mounts. clear Hvolumes.
  induction volumes as [|x volumes IH]; simpl; [constructor|].
  destruct (Contains x ":"); by constructor.
Qed.

(** C10. The two places that read the volumes differ in multiplicity: the
    volumes set of the general config has one element per distinct entry
    without [":"] and does not depend on their order or repetition, while
    the binds of the host config keep every entry with [":"], repeated as
    often as the list repeats it and in its order. *)
Theorem volumes_multiplicity (config : ConfigContainer.t)
    (volumes : list string) :
  Volumes config = Some volumes →
  ∃ apiConfig hostConfig,
    GetApiConfig config = Done apiConfig ∧
    GetApiHostConfig config = Done hostConfig ∧
    set_len (docker.Config.Volumes apiConfig)
    = length (remove_dups (named_volumes volumes)) ∧
    (∀ config' volumes',
       Volumes config' = Some volumes' →
       (∀ v, v ∈ named_volumes volumes' ↔ v ∈ named_volumes volumes) →
       ∃ apiConfig',
         GetApiConfig config' = Done apiConfig' ∧
         docker.Config.Volumes apiConfig' = docker.Config.Volumes apiConfig) ∧
    elems (docker.HostConfig.Binds hostConfig) = bind_mounts volumes ∧
    (∀ v, Contains v ":" = true →
          count_occ String.string_dec
                    (elems (docker.HostConfig.Binds hostConfig)) v
          = count_occ String.string_dec volumes v).
Proof.
  intros Hvolumes.
  exists (apiConfig_of config), (hostConfig_of config).
  split; [apply GetApiConfig_returns|].
  split; [apply GetApiHostConfig_returns|].
  simpl; rewrite Hvolumes; cbn [elems default from_option id].
  assert (elems (if (0 <? length (bind_mounts volumes))%nat
                 then Some (bind_mounts volumes) else None)
          = bind_mounts volumes) as Hbinds.
  { rewrite length_pos. by destruct (bind_mounts volumes). }
  split.
  { destruct (0 <? size _)%nat eqn:Hsize; simpl.
    - apply size_list_to_set_dups.
    - rewrite <- size_list_to_set_dups.
      apply Nat.ltb_ge in Hsize. lia. }
  split.
  { intros config' volumes' Hvolumes' Hsame.
    exists (apiConfig_of config'). split; [apply GetApiConfig_returns|].
    simpl. rewrite Hvolumes'; simpl.
    assert (list_to_set (named_volumes volumes')
            =@{gset string} list_to_set (named_volumes volumes)) as ->; [|done].
    apply set_eq; intros v. by rewrite !elem_of_list_to_set. }
  split; [done|].
  intros v Hv. rewrite Hbinds. by apply count_occ_bind_mounts.
Qed.

(** C7. With an environment mapping present, the environment of the
    general config is a sequence with one ["KEY=VALUE"] string per entry
    of the mapping, in some order; without a mapping the field is left
    out. *)
Theorem env_rendered (config : ConfigContainer.t) :
  ∃ apiConfig,
    GetApiConfig config = Done apiConfig ∧
    match Env config with
    | Some env =>
        ∃ rendered,
          docker.Config.Env apiConfig = Some rendered ∧
          rendered ≡ₚ (λ entry, entry.1 +:+ "=" +:+ entry.2) <$> map_to_list env ∧
          length rendered = size env ∧
          ∀ s, s ∈ rendered ↔
               ∃ key val, env !! key = Some val ∧ s = key +:+ "=" +:+ val
    | None => docker.Config.Env apiConfig = None
    end.
Proof.
  exists (apiConfig_of config). split; [apply GetApiConfig_returns|].
  simpl. destruct (Env config) as [env|]; [|done].
  exists (render_env <$> map_range env).
  assert (render_env <$> map_range env ≡ₚ render_env <$> map_to_list env)
    as Hperm by (by rewrite map_range_perm).
  split; [done|]. split; [done|]. split.
  - by rewrite Hperm, length_fmap, length_map_to_list.
  - intros s. rewrite Hperm, list_elem_of_fmap. split.
    + intros [[key val] [-> Hin]]. exists key, val.
      by apply elem_of_map_to_list in Hin.
    + intros (key & val & Hin & ->). exists (key, val).
      by apply elem_of_map_to_list in Hin.
Qed.

(** C8. With a non-empty port-binding list, the port bindings of the host
    config map each declared key to the host ip/port pairs of the entries
    declared for it, in the order of the list; entries that share a key
    add up, so a key declared n times has n bindings, and a key that is
    not declared has none. *)
Theorem port_bindings_grouped (config : ConfigContainer.t)
    (ports : list PortBinding.t) :
  Ports config = Some ports →
  ports ≠ [] →
  ∃ hostConfig portBindings,
    GetApiHostConfig config = Done hostConfig ∧
    docker.HostConfig.PortBindings hostConfig = Some portBindings ∧
    ∀ key : docker.Port,
      portBindings !! key
      = match declared_for key ports with
        | [] => None
        | declared => Some (Some (binding_of <$> declared))
        end ∧
      len (map_read (docker.HostConfig.PortBindings hostConfig) key)
      = length (declared_for key ports).
Proof.
  intros Hports Hne.
  exists (hostConfig_of config), (foldl bind_port ∅ ports).
  split; [apply GetApiHostConfig_returns|].
  simpl; rewrite Hports. destruct ports as [|p ports]; [done|].
  change (0 <? len (Some (p :: ports)))%nat with true.
  cbn [elems from_option id].
  split; [done|]. intros key.
  unfold map_read, map_index.
  pose proof (lookup_bind_ports (p :: ports) ∅ key) as Hkey.
  rewrite lookup_empty in Hkey. unfold docker.Port, slice in *. rewrite !Hkey.
  destruct (declared_for key (p :: ports)) as [|d declared];
    (split; [reflexivity|]); [reflexivity|].
  unfold len; simpl. by rewrite length_fmap.
Qed.
End collections.

(** ** Extraction *)

Section extraction_claims.
Context `{MapRange} `{NameTypes} `{!Yaml}.
Import ConfigContainer.

(** C4. Extraction fails with ConfigMissing exactly when the descriptor's
    labels lack the key rocker-compose-config; when the key is there and
    its value does not deserialize, it fails with ConfigParseError, which
    carries the container's name and the parser's error; and whenever it
    fails it returns no specification, not even the partly decoded one. *)
Theorem extraction_errors (apiContainer : docker.Container.t) :
  ((NewContainerConfigFromDocker apiContainer).2 = Some ConfigMissing
   ↔ reserved_label apiContainer = None) ∧
  (∀ yamlData partial cause,
     reserved_label apiContainer = Some yamlData →
     Unmarshal yamlData ConfigContainer.zero = (partial, Some cause) →
     NewContainerConfigFromDocker apiContainer
     = (nil, Some (ConfigParseError (docker.Container.Name apiContainer) cause))) ∧
  (∀ err,
     (NewContainerConfigFromDocker apiContainer).2 = Some err →
     (NewContainerConfigFromDocker apiContainer).1 = nil).
Proof.
  split; [|split].
  - split.
    + destruct (reserved_label apiContainer) as [yamlData|] eqn:Hlabel; [|done].
      destruct (Unmarshal yamlData ConfigContainer.zero) as [partial [cause|]]
        eqn:Hparse.
      * rewrite (extraction_unparsable _ _ _ _ Hlabel Hparse). discriminate.
      * rewrite (extraction_parsed _ _ _ Hlabel Hparse). discriminate.
    + intros Hlabel. by rewrite (extraction_missing _ Hlabel).
  - intros yamlData partial cause Hlabel Hparse.
    apply (extraction_unparsable _ _ _ _ Hlabel Hparse).
  - intros err.
    destruct (reserved_label apiContainer) as [yamlData|] eqn:Hlabel.
    + destruct (Unmarshal yamlData ConfigContainer.zero) as [partial [cause|]]
        eqn:Hparse.
      * by rewrite (extraction_unparsable _ _ _ _ Hlabel Hparse).
      * by rewrite (extraction_parsed _ _ _ Hlabel Hparse).
    + by rewrite (extraction_missing _ Hlabel).
Qed.

(** C5. When the reserved label deserializes, the specification that
    extraction returns has no label under the prefix rocker-compose-, has
    every other label of the decoded specification with its value, and
    differs from the decoded specification in its labels only. *)
Theorem extraction_strips_reserved (apiContainer : docker.Container.t)
    (yamlData : string) (decoded : ConfigContainer.t) :
  reserved_label apiContainer = Some yamlData →
  Unmarshal yamlData ConfigContainer.zero = (decoded, None) →
  ∃ container,
    NewContainerConfigFromDocker apiContainer = (Some container, None) ∧
    (∀ k, HasPrefix k "rocker-compose-" = true →
          map_index (Labels container) k = None) ∧
    (∀ k, HasPrefix k "rocker-compose-" = false →
          map_index (Labels container) k = map_index (Labels decoded) k) ∧
    is_nil (Labels container) = is_nil (Labels decoded) ∧
    container = set_Labels (Labels container) decoded.
Proof.
  intros Hlabel Hparse. exists (strip_labels decoded).
  split; [by apply extraction_parsed with yamlData|].
  unfold strip_labels.
  destruct (Labels decoded) as [labels|] eqn:Hl; simpl.
  - repeat split; try done; intros k Hk; unfold strip_reserved;
      rewrite map_lookup_filter; unfold reserved; simpl; rewrite Hk;
      by destruct (labels !! k).
  - rewrite Hl. repeat split; try done. by rewrite <- Hl, set_Labels_same.
Qed.
End extraction_claims.

(** ** The properties at sample inputs *)

(** The example of the volumes ["/data"] and ["/host:/data"]. *)
Lemma volumes_split_by_separator_sample :
  ∃ apiConfig hostConfig,
    @GetApiConfig range_listed names_rendered sample_config = Done apiConfig ∧
    @GetApiHostConfig names_rendered sample_config = Done hostConfig ∧
    docker.Config.Volumes apiConfig = Some (list_to_set ["/data"; "/data"]) ∧
    docker.HostConfig.Binds hostConfig = Some ["/host:/data"; "/host:/data"].
Proof.
  destruct (@volumes_split_by_separator range_listed names_rendered
              sample_config
              ["/data"; "/host:/data"; "/data"; "/host:/data"] eq_refl)
    as (apiConfig & hostConfig & Hapi & Hhost & Hvolumes & _ & Hbinds & _).
  exists apiConfig, hostConfig. repeat split; assumption.
Defined.

Lemma volumes_multiplicity_sample :
  ∃ apiConfig hostConfig,
    @GetApiConfig range_listed names_rendered sample_config = Done apiConfig ∧
    @GetApiHostConfig names_rendered sample_config = Done hostConfig ∧
    set_len (docker.Config.Volumes apiConfig) = 1%nat ∧
    elems (docker.HostConfig.Binds hostConfig) = ["/host:/data"; "/host:/data"].
Proof.
  destruct (@volumes_multiplicity range_listed names_rendered
              sample_config
              ["/data"; "/host:/data"; "/data"; "/host:/data"] eq_refl)
    as (apiConfig & hostConfig & Hapi & Hhost & Hsize & _ & Hbinds & _).
  exists apiConfig, hostConfig. repeat split; assumption.
Defined.

(** The example of port 80/tcp bound to the host ports 8080 and 8081. *)
Lemma port_bindings_grouped_sample :
  ∃ hostConfig,
    @GetApiHostConfig names_rendered sample_config = Done hostConfig ∧
    map_index (docker.HostConfig.PortBindings hostConfig) "80/tcp"
    = Some (Some [ {| docker.PortBinding.HostIP := "0.0.0.0";
                      docker.PortBinding.HostPort := "8080" |};
                   {| docker.PortBinding.HostIP := "0.0.0.0";
                      docker.PortBinding.HostPort := "8081" |} ]) ∧
    len (map_read (docker.HostConfig.PortBindings hostConfig) "80/tcp") = 2%nat.
Proof.
  destruct (@port_bindings_grouped names_rendered sample_config
              _ eq_refl ltac:(discriminate))
    as (hostConfig & portBindings & Hhost & Hfield & Hkey).
  exists hostConfig. destruct (Hkey "80/tcp") as [Hlookup Hlen].
  split; [assumption|]. rewrite Hfield in *. split; assumption.
Defined.

Lemma extraction_strips_reserved_sample :
  ∃ container,
    @NewContainerConfigFromDocker range_listed names_rendered yaml_one_document
      sample_descriptor = (Some container, None) ∧
    map_index (ConfigContainer.Labels container) "rocker-compose-id" = None ∧
    map_index (ConfigContainer.Labels container) "app" = Some "web".
Proof.
  destruct (@extraction_strips_reserved range_listed names_rendered
              yaml_one_document sample_descriptor sample_yaml sample_stored
              eq_refl eq_refl)
    as (container & Hreturns & Hreserved & Hkept & _).
  exists container. split; [assumption|]. split.
  - apply Hreserved. reflexivity.
  - rewrite Hkept; reflexivity.
Defined.

(** ** Runs of the model *)

(** A specification with nothing set leaves both structures untouched. *)
Example GetApiConfig_zero :
  @GetApiConfig range_listed names_rendered ConfigContainer.zero
  = Done docker.Config.zero.
Proof. reflexivity. Qed.

Example GetApiHostConfig_zero :
  @GetApiHostConfig names_rendered ConfigContainer.zero
  = Done docker.HostConfig.zero.
Proof. reflexivity. Qed.

Example sample_env :
  match @GetApiConfig range_listed names_rendered sample_config with
  | Done apiConfig => docker.Config.Env apiConfig
  | Panic => None
  end = Some ["A=1"; "B=2"].
Proof. vm_compute. reflexivity. Qed.

Example sample_hostname :
  match @GetApiConfig range_listed names_rendered sample_config with
  | Done apiConfig => Some (docker.Config.Hostname apiConfig)
  | Panic => None
  end = Some "".
Proof. vm_compute. reflexivity. Qed.

Example sample_ulimits :
  match @GetApiHostConfig names_rendered sample_config with
  | Done hostConfig => docker.HostConfig.Ulimits hostConfig
  | Panic => None
  end = Some [ {| docker.ULimit.Name := "nofile"; docker.ULimit.Soft := 1024;
                  docker.ULimit.Hard := 2048 |} ].
Proof. vm_compute. reflexivity. Qed.

Example sample_extraction_missing :
  @NewContainerConfigFromDocker range_listed names_rendered yaml_one_document
    sample_unmanaged
  = (nil, Some ConfigMissing).
Proof. vm_compute. reflexivity. Qed.

Example sample_extraction_unparsable :
  @NewContainerConfigFromDocker range_listed names_rendered yaml_one_document
    sample_corrupted
  = (nil, Some (ConfigParseError "/queue" "yaml: unsupported document")).
Proof. vm_compute. reflexivity. Qed.

Example sample_extraction_labels :
  match @NewContainerConfigFromDocker range_listed names_rendered
          yaml_one_document sample_descriptor with
  | (Some container, None) => ConfigContainer.Labels container
  | _ => None
  end = Some {[ "app" := "web" ]}.
Proof. vm_compute. reflexivity. Qed.

(** * Further properties *)

(** ** Extraction and assembly *)

Section extraction_more.
Context `{MapRange} `{NameTypes} `{!Yaml}.
Import ConfigContainer.

Lemma extraction_cases (apiContainer : docker.Container.t) :
  (∃ container,
     NewContainerConfigFromDocker apiContainer = (Some container, None)) ∨
  (∃ err, NewContainerConfigFromDocker apiContainer = (nil, Some err)).
Proof.
  destruct (reserved_label apiContainer) as [yamlData|] eqn:Hlabel.
  - destruct (Unmarshal yamlData ConfigContainer.zero) as [decoded [cause|]]
      eqn:Hparse.
    + right. eexists. apply (extraction_unparsable _ _ _ _ Hlabel Hparse).
    + left. eexists. apply (extraction_parsed _ _ _ Hlabel Hparse).
  - right. eexists. apply (extraction_missing _ Hlabel).
Qed.

(** X1. Extraction returns a specification or an error, never both and never
    neither: the specification is nil exactly when the error is not. *)
Theorem extraction_result_or_error (apiContainer : docker.Container.t) :
  (NewContainerConfigFromDocker apiContainer).1 = nil
  ↔ (NewContainerConfigFromDocker apiContainer).2 ≠ None.
Proof.
  destruct (extraction_cases apiContainer) as [[container ->] | [err ->]];
    simpl; unfold nil; split; congruence.
Qed.

(** X2. A descriptor whose label mapping is nil or empty is reported as
    missing its configuration; reading the nil mapping does not panic. *)
Theorem extraction_without_labels (apiContainer : docker.Container.t) :
  docker.Config.Labels (docker.Container.Config apiContainer) = None ∨
  docker.Config.Labels (docker.Container.Config apiContainer) = Some ∅ →
  NewContainerConfigFromDocker apiContainer = (nil, Some ConfigMissing).
Proof.
  intros Hlabels. apply extraction_missing. unfold reserved_label.
  destruct Hlabels as [-> | ->]; [done|]. apply lookup_empty.
Qed.

(** X3. Extraction reads the reserved label and, for the error message, the
    name: two descriptors with the same reserved label yield the same
    specification, and the same result altogether when they also have the
    same name, whatever else they hold. *)
Theorem extraction_reads_label_and_name (first second : docker.Container.t) :
  reserved_label first = reserved_label second →
  (NewContainerConfigFromDocker first).1
  = (NewContainerConfigFromDocker second).1 ∧
  (docker.Container.Name first = docker.Container.Name second →
   NewContainerConfigFromDocker first = NewContainerConfigFromDocker second).
Proof.
  intros Hsame.
  destruct (reserved_label second) as [yamlData|] eqn:Hsecond.
  - destruct (Unmarshal yamlData ConfigContainer.zero) as [decoded [cause|]]
      eqn:Hparse.
    + rewrite (extraction_unparsable _ _ _ _ Hsame Hparse),
        (extraction_unparsable _ _ _ _ Hsecond Hparse).
      split; [done|]. by intros ->.
    + by rewrite (extraction_parsed _ _ _ Hsame Hparse),
        (extraction_parsed _ _ _ Hsecond Hparse).
  - by rewrite (extraction_missing _ Hsame), (extraction_missing _ Hsecond).
Qed.

(** X4. A decoded specification without labels under the reserved prefix
    comes out of extraction as it was decoded. *)
Theorem extraction_keeps_clean (apiContainer : docker.Container.t)
    (yamlData : string) (decoded : ConfigContainer.t) :
  reserved_label apiContainer = Some yamlData →
  Unmarshal yamlData ConfigContainer.zero = (decoded, None) →
  (∀ k, HasPrefix k "rocker-compose-" = true →
        map_index (Labels decoded) k = None) →
  NewContainerConfigFromDocker apiContainer = (Some decoded, None).
Proof.
  intros Hlabel Hparse Hclean.
  rewrite (extraction_parsed _ _ _ Hlabel Hparse). do 2 f_equal.
  unfold strip_labels.
  destruct (Labels decoded) as [labels|] eqn:Hl; [|done].
  assert (strip_reserved labels = labels) as ->.
  { apply map_eq; intros k. unfold strip_reserved.
    rewrite map_lookup_filter.
    destruct (labels !! k) as [v|] eqn:Hk; [|done]. simpl.
    destruct (reserved k) eqn:Hres; [|done].
    specialize (Hclean k Hres). simpl in Hclean. congruence. }
  by rewrite <- Hl, set_Labels_same.
Qed.

(** X7. The labels that the general config built from an extracted
    specification sends to the runtime hold no key under the reserved
    prefix, and hold every other decoded label. *)
Theorem extracted_labels_reach_runtime_clean
    (apiContainer : docker.Container.t) (yamlData : string)
    (decoded : ConfigContainer.t) :
  reserved_label apiContainer = Some yamlData →
  Unmarshal yamlData ConfigContainer.zero = (decoded, None) →
  ∃ container apiConfig,
    NewContainerConfigFromDocker apiContainer = (Some container, None) ∧
    GetApiConfig container = Done apiConfig ∧
    ∀ k, map_index (docker.Config.Labels apiConfig) k
         = if HasPrefix k "rocker-compose-" then None
           else map_index (Labels decoded) k.
Proof.
  intros Hlabel Hparse.
  exists (strip_labels decoded), (apiConfig_of (strip_labels decoded)).
  split; [apply (extraction_parsed _ _ _ Hlabel Hparse)|].
  split; [apply GetApiConfig_returns|].
  intros k. simpl. unfold strip_labels.
  destruct (Labels decoded) as [labels|] eqn:Hl; simpl.
  - unfold strip_reserved. rewrite map_lookup_filter. unfold reserved; simpl.
    by destruct (HasPrefix k "rocker-compose-"), (labels !! k).
  - rewrite Hl. by destruct (HasPrefix k "rocker-compose-").
Qed.
End extraction_more.

(** X5. The order in which Go ranges over the label map does not show in what
    extraction returns. *)
Theorem extraction_order_independent (order order' : MapRange)
    `{NameTypes} `{!Yaml} (apiContainer : docker.Container.t) :
  @NewContainerConfigFromDocker order _ _ apiContainer
  = @NewContainerConfigFromDocker order' _ _ apiContainer.
Proof.
  destruct (reserved_label apiContainer) as [yamlData|] eqn:Hlabel.
  - destruct (Unmarshal yamlData ConfigContainer.zero) as [decoded [cause|]]
      eqn:Hparse.
    + by rewrite !(extraction_unparsable _ _ _ _ Hlabel Hparse).
    + by rewrite !(extraction_parsed _ _ _ Hlabel Hparse).
  - by rewrite !(extraction_missing _ Hlabel).
Qed.

Section assembly.
Context `{MapRange} `{NameTypes} `{!Yaml} `{Naming}.

(** X8. Assembly fails exactly when extraction does, with extraction's error
    as it is and without a container; otherwise it returns a container
    and no error. *)
Theorem assembly_fails_as_extraction (dockerContainer : docker_Container.t) :
  match NewContainerConfigFromDocker (docker_Container.Base dockerContainer) with
  | (_, Some err) => NewContainerFromDocker dockerContainer = (nil, Some err)
  | (config, None) =>
      ∃ container,
        NewContainerFromDocker dockerContainer = (Some container, None) ∧
        Container.Config container = config ∧
        config ≠ nil
  end.
Proof.
  unfold NewContainerFromDocker.
  destruct (extraction_cases (docker_Container.Base dockerContainer))
    as [[config ->] | [err ->]]; [|done].
  eexists. split; [reflexivity|]. by split.
Qed.

(** X9. When the reserved label decodes, the assembled container has the id,
    image id, creation time and state of the descriptor field by field,
    the names made from the descriptor's image and name, the extracted
    specification, and the descriptor itself as its back reference. *)
Theorem assembly_copies_descriptor (dockerContainer : docker_Container.t)
    (yamlData : string) (decoded : ConfigContainer.t) :
  reserved_label (docker_Container.Base dockerContainer) = Some yamlData →
  Unmarshal yamlData ConfigContainer.zero = (decoded, None) →
  ∃ container state,
    NewContainerFromDocker dockerContainer = (Some container, None) ∧
    Container.Id container
    = docker.Container.ID (docker_Container.Base dockerContainer) ∧
    Container.ImageId container
    = docker.Container.Image (docker_Container.Base dockerContainer) ∧
    Container.Image container
    = NewImageNameFromString
        (docker.Config.Image
           (docker.Container.Config (docker_Container.Base dockerContainer))) ∧
    Container.Name container
    = NewContainerNameFromString
        (docker.Container.Name (docker_Container.Base dockerContainer)) ∧
    Container.Created container = docker_Container.Created dockerContainer ∧
    Container.Config container = Some (strip_labels decoded) ∧
    Container.container container = Some dockerContainer ∧
    Container.State container = Some state ∧
    ContainerState.Running state
    = docker_State.Running (docker_Container.State dockerContainer) ∧
    ContainerState.Paused state
    = docker_State.Paused (docker_Container.State dockerContainer) ∧
    ContainerState.Restarting state
    = docker_State.Restarting (docker_Container.State dockerContainer) ∧
    ContainerState.OOMKilled state
    = docker_State.OOMKilled (docker_Container.State dockerContainer) ∧
    ContainerState.Pid state
    = docker_State.Pid (docker_Container.State dockerContainer) ∧
    ContainerState.ExitCode state
    = docker_State.ExitCode (docker_Container.State dockerContainer) ∧
    ContainerState.Error state
    = docker_State.Error (docker_Container.State dockerContainer) ∧
    ContainerState.StartedAt state
    = docker_State.StartedAt (docker_Container.State dockerContainer) ∧
    ContainerState.FinishedAt state
    = docker_State.FinishedAt (docker_Container.State dockerContainer).
Proof.
  intros Hlabel Hparse. unfold NewContainerFromDocker.
  rewrite (extraction_parsed _ _ _ Hlabel Hparse).
  do 2 eexists. split; [reflexivity|]. simpl. repeat split.
Qed.
End assembly.

(** ** The general config *)

Section general_config.
Context `{MapRange} `{NameTypes}.
Import ConfigContainer.

(** X10. A declared list of exposed ports, even an empty one, gives the set of
    its entries, one element per distinct port; without a list the field
    stays nil. *)
Theorem exposed_ports_set (config : ConfigContainer.t) :
  ∃ apiConfig,
    GetApiConfig config = Done apiConfig ∧
    match Expose config with
    | Some ports =>
        ∃ exposed,
          docker.Config.ExposedPorts apiConfig = Some exposed ∧
          (∀ port, port ∈ exposed ↔ port ∈ ports) ∧
          size exposed = length (remove_dups ports)
    | None => docker.Config.ExposedPorts apiConfig = None
    end.
Proof.
  exists (apiConfig_of config). split; [apply GetApiConfig_returns|].
  simpl. destruct (Expose config) as [ports|]; [|done].
  exists (list_to_set ports). split; [done|]. split.
  - intros port. apply elem_of_list_to_set.
  - apply size_list_to_set_dups.
Qed.

(** X11. Which collection fields of the general config are present: the
    environment and the exposed ports exactly when the specification has
    them, also when they are empty; the volumes only when the list has an
    entry without [":"]. *)
Theorem general_config_presence (config : ConfigContainer.t) :
  ∃ apiConfig,
    GetApiConfig config = Done apiConfig ∧
    is_nil (docker.Config.Env apiConfig) = is_nil (Env config) ∧
    is_nil (docker.Config.ExposedPorts apiConfig) = is_nil (Expose config) ∧
    (is_nil (docker.Config.Volumes apiConfig) = false
     ↔ ∃ volume, volume ∈ elems (Volumes config) ∧ Contains volume ":" = false).
Proof.
  exists (apiConfig_of config). split; [apply GetApiConfig_returns|].
  simpl. split; [by destruct (Env config)|].
  split; [by destruct (Expose config)|].
  destruct (Volumes config) as [volumes|]; simpl.
  - rewrite size_list_to_set_pos.
    destruct (named_volumes volumes) as [|named rest] eqn:Hnamed; simpl.
    + split; [done|]. intros (volume & Hin).
      apply elem_of_named_volumes in Hin. rewrite Hnamed in Hin.
      by apply not_elem_of_nil in Hin.
    + split; [|done]. intros _. exists named.
      apply elem_of_named_volumes. rewrite Hnamed. apply list_elem_of_here.
  - split; [done|]. intros (volume & Hin & _). by apply not_elem_of_nil in Hin.
Qed.

(** X12. The fields that are copied as they are: entrypoint and labels always,
    nil included; the command's arguments and the image when the
    specification has them. *)
Theorem general_config_copies (config : ConfigContainer.t) :
  ∃ apiConfig,
    GetApiConfig config = Done apiConfig ∧
    docker.Config.Entrypoint apiConfig = Entrypoint config ∧
    docker.Config.Labels apiConfig = Labels config ∧
    docker.Config.Cmd apiConfig
    = match Cmd config with
      | Some cmd => ConfigCmd.Parts cmd
      | None => None
      end ∧
    kept_or_copied (Image config)
      (docker.Config.Image docker.Config.zero)
      (docker.Config.Image apiConfig).
Proof.
  exists (apiConfig_of config). split; [apply GetApiConfig_returns|].
  simpl. repeat split. by destruct (Image config).
Qed.
End general_config.

(** X13. Two orders of ranging over the environment give general configs that
    differ in the order of the environment sequence and in nothing else. *)
Theorem general_config_up_to_env_order (order order' : MapRange)
    `{NameTypes} (config : ConfigContainer.t) :
  ∃ apiConfig apiConfig',
    @GetApiConfig order _ config = Done apiConfig ∧
    @GetApiConfig order' _ config = Done apiConfig' ∧
    apiConfig'
    = docker.Config.set_Env (docker.Config.Env apiConfig') apiConfig ∧
    is_nil (docker.Config.Env apiConfig')
    = is_nil (docker.Config.Env apiConfig) ∧
    elems (docker.Config.Env apiConfig') ≡ₚ elems (docker.Config.Env apiConfig).
Proof.
  exists (@apiConfig_of order _ config), (@apiConfig_of order' _ config).
  split; [apply GetApiConfig_returns|].
  split; [apply GetApiConfig_returns|].
  simpl. split; [done|].
  destruct (ConfigContainer.Env config) as [env|]; simpl; [|done].
  split; [done|].
  by rewrite (@map_range_perm order), (@map_range_perm order').
Qed.

(** ** The host config *)

Lemma rendered_slice {A B} (f : A → B) (xs : slice A) :
  let out := if (0 <? len xs)%nat then Some (f <$> elems xs) else None in
  elems out = f <$> elems xs ∧ (is_nil out = true ↔ elems xs = []).
Proof.
  unfold len. destruct (elems xs) as [|x rest]; simpl; split; done.
Qed.

Lemma dom_bind_ports (ports : list PortBinding.t)
    (g : gmap string (slice docker.PortBinding.t)) :
  dom (foldl bind_port g ports)
  = list_to_set (PortBinding.Port <$> ports) ∪ dom g.
Proof.
  revert g. induction ports as [|p ports IH]; intros g; simpl.
  - by rewrite (left_id_L ∅ (∪)).
  - rewrite IH. unfold bind_port. rewrite dom_insert_L.
    by rewrite (assoc_L (∪)), (comm_L (∪) _ {[PortBinding.Port p]}).
Qed.

Lemma bindings_total_bind_port (g : gmap string (slice docker.PortBinding.t))
    (p : PortBinding.t) :
  bindings_total (bind_port g p) = S (bindings_total g).
Proof.
  unfold bindings_total, bind_port.
  destruct (g !! PortBinding.Port p) as [sl|] eqn:Hk.
  - rewrite <- insert_delete_eq.
    rewrite map_to_list_insert by apply lookup_delete_eq.
    rewrite <- (map_to_list_delete g _ _ Hk). simpl.
    unfold len, slice; simpl. rewrite length_app; simpl. lia.
  - rewrite map_to_list_insert by done. simpl. unfold len, slice; simpl. lia.
Qed.

Lemma bindings_total_bind_ports (ports : list PortBinding.t)
    (g : gmap string (slice docker.PortBinding.t)) :
  bindings_total (foldl bind_port g ports) = (length ports + bindings_total g)%nat.
Proof.
  revert g. induction ports as [|p ports IH]; intros g; simpl; [done|].
  rewrite IH, bindings_total_bind_port. lia.
Qed.

Section host_config.
Context `{MapRange} `{NameTypes}.
Import ConfigContainer.

(** X15. Every entry of the volumes list goes to exactly one of the two
    requests: to the volumes set of the general config or to the binds of
    the host config, never to both and never to neither; a nil or empty
    list leaves both fields nil. *)
Theorem volumes_partition (config : ConfigContainer.t) :
  ∃ apiConfig hostConfig,
    GetApiConfig config = Done apiConfig ∧
    GetApiHostConfig config = Done hostConfig ∧
    (∀ volume,
       volume ∈ elems (Volumes config)
       ↔ set_has volume (docker.Config.Volumes apiConfig)
         ∨ volume ∈ elems (docker.HostConfig.Binds hostConfig)) ∧
    (∀ volume,
       set_has volume (docker.Config.Volumes apiConfig) →
       volume ∈ elems (docker.HostConfig.Binds hostConfig) →
       False) ∧
    (elems (Volumes config) = [] →
     docker.Config.Volumes apiConfig = None ∧
     docker.HostConfig.Binds hostConfig = None).
Proof.
  exists (apiConfig_of config), (hostConfig_of config).
  split; [apply GetApiConfig_returns|].
  split; [apply GetApiHostConfig_returns|].
  assert (∀ volume,
            set_has volume (docker.Config.Volumes (apiConfig_of config))
            ↔ volume ∈ named_volumes (elems (Volumes config))) as Hset.
  { intros volume. simpl. destruct (Volumes config) as [volumes|]; simpl.
    - rewrite size_list_to_set_pos.
      destruct (named_volumes volumes) as [|named rest] eqn:Hnamed.
      + split; [done|]. by intros ?%not_elem_of_nil.
      + change (volume ∈ (list_to_set (named :: rest) : gset string)
                ↔ volume ∈ named :: rest).
        apply elem_of_list_to_set.
    - split; [done|]. by intros ?%not_elem_of_nil. }
  assert (elems (docker.HostConfig.Binds (hostConfig_of config))
          = bind_mounts (elems (Volumes config))) as Hbinds.
  { simpl. rewrite length_pos.
    by destruct (bind_mounts (elems (Volumes config))). }
  split; [|split].
  - intros volume.
    rewrite Hset, Hbinds, elem_of_named_volumes, elem_of_bind_mounts.
    destruct (Contains volume ":"); intuition congruence.
  - intros volume.
    rewrite Hset, Hbinds, elem_of_named_volumes, elem_of_bind_mounts.
    intros [_ Hno] [_ Hyes]. congruence.
  - intros Hempty. simpl. rewrite Hempty. split; [|done].
    by destruct (Volumes config) as [[|]|].
Qed.

(** X16. Links, volumes-from and ulimits are rendered entry by entry, in the
    order of the specification and with nothing added or dropped; each
    field is nil exactly when the specification has no entry for it. *)
Theorem host_lists_rendered (config : ConfigContainer.t) :
  ∃ hostConfig,
    GetApiHostConfig config = Done hostConfig ∧
    elems (docker.HostConfig.Links hostConfig)
    = Link_String <$> elems (Links config) ∧
    (is_nil (docker.HostConfig.Links hostConfig) = true
     ↔ elems (Links config) = []) ∧
    elems (docker.HostConfig.VolumesFrom hostConfig)
    = VolumeFrom_String <$> elems (VolumesFrom config) ∧
    (is_nil (docker.HostConfig.VolumesFrom hostConfig) = true
     ↔ elems (VolumesFrom config) = []) ∧
    length (elems (docker.HostConfig.Ulimits hostConfig))
    = length (elems (Ulimits config)) ∧
    (is_nil (docker.HostConfig.Ulimits hostConfig) = true
     ↔ elems (Ulimits config) = []) ∧
    (∀ i ulimit,
       elems (Ulimits config) !! i = Some ulimit →
       ∃ out,
         elems (docker.HostConfig.Ulimits hostConfig) !! i = Some out ∧
         docker.ULimit.Name out = ConfigUlimit.Name ulimit ∧
         docker.ULimit.Soft out = ConfigUlimit.Soft ulimit ∧
         docker.ULimit.Hard out = ConfigUlimit.Hard ulimit).
Proof.
  exists (hostConfig_of config). split; [apply GetApiHostConfig_returns|].
  unfold hostConfig_of.
  cbn [docker.HostConfig.Links docker.HostConfig.VolumesFrom
       docker.HostConfig.Ulimits].
  destruct (rendered_slice Link_String (Links config)) as [Hlinks Hnolinks].
  destruct (rendered_slice VolumeFrom_String (VolumesFrom config))
    as [Hfrom Hnofrom].
  destruct (rendered_slice render_ulimit (Ulimits config))
    as [Hulimits Hnoulimits].
  split; [exact Hlinks|]. split; [exact Hnolinks|].
  split; [exact Hfrom|]. split; [exact Hnofrom|].
  split.
  { apply (f_equal length) in Hulimits.
    rewrite length_fmap in Hulimits. exact Hulimits. }
  split; [exact Hnoulimits|].
  intros i ulimit Hi. exists (render_ulimit ulimit). split; [|done].
  apply (f_equal (λ l, l !! i)) in Hulimits.
  rewrite list_lookup_fmap, Hi in Hulimits. exact Hulimits.
Qed.

(** X17. The host-config fields that are copied as they are: DNS servers and
    extra hosts always, nil included; network mode and pid mode when the
    specification has them; the restart policy as its own conversion
    returns it. *)
Theorem host_config_copies (config : ConfigContainer.t) :
  ∃ hostConfig,
    GetApiHostConfig config = Done hostConfig ∧
    docker.HostConfig.DNS hostConfig = Dns config ∧
    docker.HostConfig.ExtraHosts hostConfig = AddHost config ∧
    kept_or_copied (Net config)
      (docker.HostConfig.NetworkMode docker.HostConfig.zero)
      (docker.HostConfig.NetworkMode hostConfig) ∧
    kept_or_copied (Pid config)
      (docker.HostConfig.PidMode docker.HostConfig.zero)
      (docker.HostConfig.PidMode hostConfig) ∧
    RestartPolicy.ToDockerApi (Restart config)
    = Done (docker.HostConfig.RestartPolicy hostConfig).
Proof.
  exists (hostConfig_of config). split; [apply GetApiHostConfig_returns|].
  simpl. repeat split.
  - by destruct (Net config).
  - by destruct (Pid config).
  - by destruct (Restart config).
Qed.

(** X18. The CPU set reaches both requests with the same value. *)
Theorem cpuset_same_in_both (config : ConfigContainer.t) :
  ∃ apiConfig hostConfig,
    GetApiConfig config = Done apiConfig ∧
    GetApiHostConfig config = Done hostConfig ∧
    docker.HostConfig.CPUSet hostConfig = docker.Config.CPUSet apiConfig.
Proof.
  exists (apiConfig_of config), (hostConfig_of config).
  split; [apply GetApiConfig_returns|].
  by split; [apply GetApiHostConfig_returns|].
Qed.

(** X19. Without port bindings, nil or empty, the mapping stays nil. With some,
    its keys are exactly the declared ports, every key has at least one
    binding, and the bindings over all keys are as many as the declared
    entries: none is lost and none is made up. *)
Theorem port_bindings_account (config : ConfigContainer.t) :
  ∃ hostConfig,
    GetApiHostConfig config = Done hostConfig ∧
    (elems (Ports config) = [] →
     docker.HostConfig.PortBindings hostConfig = None) ∧
    (elems (Ports config) ≠ [] →
     ∃ portBindings,
       docker.HostConfig.PortBindings hostConfig = Some portBindings ∧
       dom portBindings
       = list_to_set (PortBinding.Port <$> elems (Ports config)) ∧
       bindings_total portBindings = length (elems (Ports config)) ∧
       ∀ key bound, portBindings !! key = Some bound → elems bound ≠ []).
Proof.
  exists (hostConfig_of config). split; [apply GetApiHostConfig_returns|].
  simpl. unfold len. destruct (elems (Ports config)) as [|p ports] eqn:Hports.
  - by split.
  - split; [done|]. intros _. exists (foldl bind_port ∅ (p :: ports)).
    split; [done|]. split; [|split].
    + by rewrite dom_bind_ports, dom_empty_L, (right_id_L ∅ (∪)).
    + rewrite bindings_total_bind_ports. unfold bindings_total.
      rewrite map_to_list_empty. simpl. lia.
    + intros key bound. unfold docker.Port, slice in *.
      rewrite lookup_bind_ports, lookup_empty.
      destruct (declared_for key (p :: ports)) as [|d declared]; [done|].
      intros [= <-]. done.
Qed.
End host_config.

(** ** Reading the environment back *)

From Stdlib Require Import Ascii.

Lemma Contains_cons_false (c : Ascii.ascii) (s : string) :
  Contains (String c s) "=" = false → c ≠ "="%char ∧ Contains s "=" = false.
Proof.
  cbn [Contains String.prefix].
  destruct (Ascii.ascii_dec "=" c) as [<-|Hne].
  - destruct s; simpl; discriminate.
  - simpl. intros Hs. split; [congruence|done].
Qed.

(** ["KEY=VALUE"] determines the key and the value when keys have no
    ["="]. *)
Lemma Sprintf_eq_inj (key val key' val' : string) :
  Contains key "=" = false →
  Contains key' "=" = false →
  Sprintf_eq key val = Sprintf_eq key' val' →
  key = key' ∧ val = val'.
Proof.
  unfold Sprintf_eq. revert key'.
  induction key as [|c key IH]; intros [|c' key'] Hkey Hkey' Heq.
  - change (String "="%char val = String "="%char val') in Heq.
    by injection Heq as ->.
  - change (String "="%char val = String c' (key' +:+ "=" +:+ val')) in Heq.
    injection Heq as Hhead Hrest.
    subst c'. by apply Contains_cons_false in Hkey' as [? _].
  - change (String c (key +:+ "=" +:+ val) = String "="%char val') in Heq.
    injection Heq as Hhead Hrest.
    subst c. by apply Contains_cons_false in Hkey as [? _].
  - change (String c (key +:+ "=" +:+ val)
            = String c' (key' +:+ "=" +:+ val')) in Heq.
    injection Heq as Hhead Hrest. subst c'.
    apply Contains_cons_false in Hkey as [_ Hkey].
    apply Contains_cons_false in Hkey' as [_ Hkey'].
    by destruct (IH key' Hkey Hkey' Hrest) as [-> ->].
Qed.

Section environment.
Context `{MapRange} `{NameTypes}.
Import ConfigContainer.

(** X14. When no key of the environment mapping has an ["="], the rendered
    sequence has no repeated string, and ["KEY=VALUE"] is in it exactly
    when the mapping binds KEY to VALUE: the mapping can be read back. *)
Theorem env_read_back (config : ConfigContainer.t) (env : gmap string string) :
  Env config = Some env →
  (∀ key val, env !! key = Some val → Contains key "=" = false) →
  ∃ apiConfig rendered,
    GetApiConfig config = Done apiConfig ∧
    docker.Config.Env apiConfig = Some rendered ∧
    NoDup rendered ∧
    ∀ key val,
      Contains key "=" = false →
      (key +:+ "=" +:+ val) ∈ rendered ↔ env !! key = Some val.
Proof.
  intros Henv Hkeys.
  exists (apiConfig_of config), (render_env <$> map_range env).
  split; [apply GetApiConfig_returns|].
  split; [by simpl; rewrite Henv|].
  assert (∀ entry, entry ∈ map_range env ↔ env !! entry.1 = Some entry.2)
    as Hentries.
  { intros [key val]. by rewrite map_range_perm, elem_of_map_to_list. }
  split.
  - apply NoDup_fmap_2_strong.
    + intros [key val] [key' val'] Hin Hin' Heq.
      apply Hentries in Hin, Hin'. simpl in *.
      destruct (Sprintf_eq_inj key val key' val') as [-> ->];
        eauto using Hkeys.
    + rewrite map_range_perm. apply NoDup_map_to_list.
  - intros key val Hkey. rewrite list_elem_of_fmap. split.
    + intros ([key' val'] & Heq & Hin). apply Hentries in Hin. simpl in *.
      destruct (Sprintf_eq_inj key val key' val') as [-> ->];
        eauto using Hkeys.
    + intros Hin. exists (key, val). split; [done|]. by apply Hentries.
Qed.
End environment.

(** ** Extraction after extraction *)

Section again.
Context `{MapRange} `{NameTypes} `{!Yaml}.
Import ConfigContainer.

Lemma strip_labels_twice (container : ConfigContainer.t) :
  strip_labels (strip_labels container) = strip_labels container.
Proof.
  unfold strip_labels at 2 3.
  destruct (Labels container) as [labels|] eqn:Hl.
  - assert (strip_reserved (strip_reserved labels) = strip_reserved labels)
      as Htwice.
    { unfold strip_reserved. apply map_filter_id.
      intros k v Hk. by apply map_lookup_filter_Some in Hk as [_ Hk]. }
    unfold strip_labels; simpl. by rewrite Htwice.
  - unfold strip_labels. by rewrite Hl.
Qed.

(** X6. An extracted specification that is serialized into the reserved label
    of another descriptor is extracted from there unchanged, given that
    the codec reads back what it wrote for it: the cleanup does not
    repeat. *)
Theorem extraction_idempotent (apiContainer again : docker.Container.t)
    (yamlData : string) (decoded : ConfigContainer.t) :
  reserved_label apiContainer = Some yamlData →
  Unmarshal yamlData ConfigContainer.zero = (decoded, None) →
  reserved_label again = Some (Marshal (strip_labels decoded)) →
  Unmarshal (Marshal (strip_labels decoded)) ConfigContainer.zero
  = (strip_labels decoded, None) →
  NewContainerConfigFromDocker again
  = NewContainerConfigFromDocker apiContainer.
Proof.
  intros Hlabel Hparse Hagain Hback.
  rewrite (extraction_parsed _ _ _ Hlabel Hparse),
    (extraction_parsed _ _ _ Hagain Hback).
  by rewrite strip_labels_twice.
Qed.
End again.

(** ** The further properties at sample inputs *)

Lemma extraction_without_labels_sample :
  @NewContainerConfigFromDocker range_listed names_rendered yaml_one_document
    sample_unlabelled
  = (nil, Some ConfigMissing).
Proof.
  apply (@extraction_without_labels range_listed names_rendered
           yaml_one_document sample_unlabelled).
  left. reflexivity.
Defined.

Lemma extraction_reads_label_and_name_sample :
  @NewContainerConfigFromDocker range_listed names_rendered yaml_one_document
    sample_descriptor_twin
  = @NewContainerConfigFromDocker range_listed names_rendered yaml_one_document
      sample_descriptor.
Proof.
  apply (@extraction_reads_label_and_name range_listed names_rendered
           yaml_one_document sample_descriptor_twin sample_descriptor eq_refl).
  reflexivity.
Defined.

Lemma extraction_keeps_clean_sample :
  @NewContainerConfigFromDocker range_listed names_rendered yaml_clean_document
    sample_clean_descriptor
  = (Some sample_clean, None).
Proof.
  apply (@extraction_keeps_clean range_listed names_rendered
           yaml_clean_document sample_clean_descriptor sample_clean_yaml
           sample_clean eq_refl eq_refl).
  intros k Hk. simpl. unfold sample_clean_labels.
  destruct (decide (k = "app")) as [->|Hne]; [discriminate Hk|].
  by apply lookup_singleton_ne.
Defined.

Lemma extracted_labels_reach_runtime_clean_sample :
  ∃ container apiConfig,
    @NewContainerConfigFromDocker range_listed names_rendered
      yaml_one_document sample_descriptor = (Some container, None) ∧
    @GetApiConfig range_listed names_rendered container = Done apiConfig ∧
    map_index (docker.Config.Labels apiConfig) "rocker-compose-id" = None ∧
    map_index (docker.Config.Labels apiConfig) "app" = Some "web".
Proof.
  destruct (@extracted_labels_reach_runtime_clean range_listed names_rendered
              yaml_one_document sample_descriptor sample_yaml sample_stored
              eq_refl eq_refl)
    as (container & apiConfig & Hextracted & Hconfig & Hlabels).
  exists container, apiConfig. split; [assumption|]. split; [assumption|].
  split; rewrite Hlabels; reflexivity.
Defined.

Lemma extraction_idempotent_sample :
  @NewContainerConfigFromDocker range_listed names_rendered yaml_two_documents
    sample_clean_descriptor
  = @NewContainerConfigFromDocker range_listed names_rendered
      yaml_two_documents sample_descriptor.
Proof.
  apply (@extraction_idempotent range_listed names_rendered yaml_two_documents
           sample_descriptor sample_clean_descriptor sample_yaml sample_stored
           eq_refl eq_refl);
    reflexivity.
Defined.

Lemma assembly_copies_descriptor_sample :
  ∃ container state,
    @NewContainerFromDocker range_listed names_rendered yaml_one_document
      naming_plain sample_inspected = (Some container, None) ∧
    Container.Id container = "4f2a" ∧
    Container.Name container = "/web" ∧
    Container.Created container = 1445000000%Z ∧
    Container.State container = Some state ∧
    ContainerState.Running state = true ∧
    ContainerState.Pid state = 4242%Z.
Proof.
  destruct (@assembly_copies_descriptor range_listed names_rendered
              yaml_one_document naming_plain sample_inspected sample_yaml
              sample_stored eq_refl eq_refl)
    as (container & state & Hreturns & Hid & _ & _ & Hname & Hcreated
        & _ & _ & Hstate & Hrunning & _ & _ & _ & Hpid & _).
  exists container, state. repeat split; assumption.
Defined.

Lemma env_read_back_sample :
  ∃ apiConfig rendered,
    @GetApiConfig range_listed names_rendered sample_config = Done apiConfig ∧
    docker.Config.Env apiConfig = Some rendered ∧
    NoDup rendered ∧
    "A=1" ∈ rendered ∧ "B=2" ∈ rendered.
Proof.
  destruct (@env_read_back range_listed names_rendered sample_config
              {[ "A" := "1"; "B" := "2" ]} eq_refl)
    as (apiConfig & rendered & Hreturns & Henv & Hnodup & Hback).
  { intros key val Hk.
    apply lookup_insert_Some in Hk as [[<- _]|[_ Hk]]; [reflexivity|].
    apply lookup_singleton_Some in Hk as [<- _]. reflexivity. }
  exists apiConfig, rendered. split; [assumption|]. split; [assumption|].
  split; [assumption|].
  split; [apply (Hback "A" "1") | apply (Hback "B" "2")]; reflexivity.
Defined.

(** ** The round trip through the reserved label *)

(** A codec for the specifications that hold labels only: a document has
    one line ["key: value"] per label. Like a YAML field that is written
    only when it has entries ([omitempty]), the label mapping leaves no
    trace in the document when it is empty, as when it is nil; reading the
    empty document leaves the target as it is. The serialization into the
    label belongs to the creation path, which is not in
    config_convert.go. *)
Definition newline : string := String "010"%char "".

Fixpoint skip (n : nat) (s : string) : string :=
  match n, s with
  | S n', String _ s' => skip n' s'
  | _, _ => s
  end.

(** [s] cut at the first occurrence of [sep]. *)
Fixpoint cut (sep s : string) : option (string * string) :=
  if String.prefix sep s then Some ("", skip (String.length sep) s)
  else match s with
       | EmptyString => None
       | String c s' =>
           match cut sep s' with
           | Some (before, after) => Some (String c before, after)
           | None => None
           end
       end.

Fixpoint split_lines (s : string) : list string :=
  match s with
  | EmptyString => []
  | String c s' =>
      if Ascii.eqb c "010"%char then "" :: split_lines s'
      else match split_lines s' with
           | [] => [String c ""]
           | line :: lines => String c line :: lines
           end
  end.

Definition render_label_lines (labels : gomap string) : string :=
  foldr (λ entry document,
           entry.1 +:+ ": " +:+ entry.2 +:+ newline +:+ document)
        "" (map_entries (H := range_listed) labels).

Definition parse_label_lines (data : string) : option (list (string * string)) :=
  mapM (cut ": ") (split_lines data).

Definition yaml_label_lines : @Yaml names_rendered := {|
  Unmarshal := λ data out,
    match parse_label_lines data with
    | None => (out, Some "yaml: could not find expected ':'")
    | Some [] => (out, None)
    | Some entries =>
        (ConfigContainer.set_Labels (Some (list_to_map entries)) out, None)
    end;
  Marshal := λ container,
    render_label_lines (ConfigContainer.Labels container)
|}.




Example sample_stored_as_lines :
  @Marshal names_rendered yaml_label_lines sample_stored
  = "app: web" +:+ newline +:+ "rocker-compose-id: 7" +:+ newline.
Proof. vm_compute. reflexivity. Qed.

Example sample_lines_read_back :
  @Unmarshal names_rendered yaml_label_lines
    (@Marshal names_rendered yaml_label_lines sample_stored)
    ConfigContainer.zero
  = (sample_stored, None).
Proof. vm_compute. reflexivity. Qed.

Example sample_lines_reject :
  @Unmarshal names_rendered yaml_label_lines "labels" ConfigContainer.zero
  = (ConfigContainer.zero, Some "yaml: could not find expected ':'").
Proof. vm_compute. reflexivity. Qed.


Section round_trip.
Context `{MapRange} `{NameTypes} `{!Yaml}.
Import ConfigContainer.

End round_trip.


